(** * kolibri/core/device/api.py: the device-management views

    A shallow embedding of the handlers of [kolibri.core.device.api]
    and the properties their documentation states.  Python dictionaries
    are finite maps keyed by strings, the stored state (the tables and
    the cache entry of the settings manager) and the process
    environment are explicit records, and a handler that touches the
    stored state is a function from it to an outcome, the state it
    leaves behind and the list of queries it issued.  A Python [str]
    is a string of characters below 256, one per code point. *)

From Stdlib Require Import ZArith String Ascii List Bool Lia.
From stdpp Require Import base option list gmap strings pretty.

Local Open Scope string_scope.
Local Open Scope Z_scope.

(** * Part I: the model *)

(** ** Python strings: [needle in s] and [s.endswith(suffix)] *)

Fixpoint contains (needle s : string) : bool :=
  String.prefix needle s
  || match s with
     | EmptyString => false
     | String _ rest => contains needle rest
     end.

Definition endswith (s suffix : string) : bool :=
  let n := String.length s in
  let k := String.length suffix in
  (k <=? n)%nat && String.eqb (String.substring (n - k) k s) suffix.

(** ** Python values, dictionaries, responses, exceptions *)

#[warnings="-register-all"]
Inductive value :=
| VNone
| VBool (b : bool)
| VInt (n : Z)
| VStr (s : string)
| VDateTime (t : Z)
| VList (l : list value).

(** A [dict] with string keys. *)
Abbreviation dict := (gmap string value).

(** [serializer.errors]: field name to messages. *)
Abbreviation error_dict := (gmap string (list string)).

Definition HTTP_200_OK : Z := 200.
Definition HTTP_201_CREATED : Z := 201.
Definition HTTP_400_BAD_REQUEST : Z := 400.

(** What a serializer's [errors] are: field names with their
    messages, in the order of the fields. *)
Abbreviation ordered_errors := (list (string * list string)).

(** [rest_framework.response.Response(data, status=...)], whose status
    is 200 when none is given, and
    [django.http.response.HttpResponseBadRequest], whose [content] is
    text. *)
Inductive response :=
| Response (data : dict) (status : Z)
| HttpResponseBadRequest (content : string).

(** The content Django makes of a dictionary given as content: it
    iterates over it, which gives the keys, and joins them. *)
Definition joined_content (errors : ordered_errors) : string :=
  String.concat "" (List.map fst errors).

Definition status_code (r : response) : Z :=
  match r with
  | Response _ st => st
  | HttpResponseBadRequest _ => HTTP_400_BAD_REQUEST
  end.

(** The exceptions the handlers can let escape: [ValidationError] is
    the one of [rest_framework.exceptions], [DjangoValidationError]
    the one of [django.core.exceptions], which [full_clean()] raises,
    and [Exception] a plain [Exception] with its message. *)
Inductive exception :=
| DoesNotExist
| KeyError (key : string)
| ValidationError (detail : error_dict)
| DjangoValidationError (message_dict : error_dict)
| Exception (message : string).

(** [rest_framework.exceptions.ValidationError.status_code]: the
    status of the response the framework builds when a view lets a
    [ValidationError] escape.  The others are not API exceptions and
    surface as a server error. *)
Definition exception_status (e : exception) : Z :=
  match e with
  | ValidationError _ => HTTP_400_BAD_REQUEST
  | DoesNotExist | KeyError _ | DjangoValidationError _ | Exception _ => 500
  end.

Inductive outcome (A : Type) :=
| Returned (a : A)
| Raised (e : exception).
Arguments Returned {A} a.
Arguments Raised {A} e.

#[global] Instance outcome_ret : MRet outcome := fun _ a => Returned a.
#[global] Instance outcome_bind : MBind outcome := fun _ _ f m =>
  match m with
  | Returned a => f a
  | Raised e => Raised e
  end.

(** [d[key]] and [del d[key]] raise [KeyError] on a missing key. *)
Definition getitem (d : dict) (key : string) : outcome value :=
  match d !! key with
  | Some v => Returned v
  | None => Raised (KeyError key)
  end.

Definition delitem (d : dict) (key : string) : outcome dict :=
  match d !! key with
  | Some _ => Returned (delete key d)
  | None => Raised (KeyError key)
  end.

(** [for key in keys: del d[key]] *)
Fixpoint delitems (d : dict) (keys : list string) : outcome dict :=
  match keys with
  | [] => Returned d
  | key :: keys' => d' ← delitem d key; delitems d' keys'
  end.

(** ** The request *)

Record user := User { is_superuser : bool }.

Record request := Request {
  data : dict;
  query_params : gmap string string;
  request_user : user;
  build_absolute_uri : string -> string
}.

(** ** The database *)

(** [DeviceSettings]: the [name] column the views assign, and the
    other columns, whose declarations are in [models.py]. *)
Record DeviceSettings := MkDeviceSettings {
  name : value;
  other_fields : dict
}.

Record DynamicNetworkLocation := MkDynamicNetworkLocation {
  subset_of_users_device : bool;
  location_fields : dict
}.

(** The stored state.  [DeviceSettings] holds at most one row: its
    [save()] sets the key to 1.  [device_settings_cache] is the cache
    entry in which the settings manager keeps the instance it last read
    or saved; the entry expires, so it can be absent at any request. *)
Record database := Database {
  device_settings : option DeviceSettings;
  dynamic_network_locations : list DynamicNetworkLocation;
  user_sync_statuses : list dict;
  other_tables : gmap string (list dict);
  device_settings_cache : option DeviceSettings
}.

Definition set_device_settings (s : DeviceSettings) (db : database) : database :=
  {| device_settings := Some s;
     dynamic_network_locations := dynamic_network_locations db;
     user_sync_statuses := user_sync_statuses db;
     other_tables := other_tables db;
     device_settings_cache := device_settings_cache db |}.

(** [cache.set(DEVICE_SETTINGS_CACHE_KEY, s, 600)] *)
Definition set_device_settings_cache (s : DeviceSettings) (db : database) : database :=
  {| device_settings := device_settings db;
     dynamic_network_locations := dynamic_network_locations db;
     user_sync_statuses := user_sync_statuses db;
     other_tables := other_tables db;
     device_settings_cache := Some s |}.

(** The cache, when it holds an instance, holds the row. *)
Definition cache_coherent (db : database) : Prop :=
  forall c, device_settings_cache db = Some c -> device_settings db = Some c.

(** What a handler asks of the database, in order. *)
Inductive query :=
| SELECT_DeviceSettings
| SAVE_DeviceSettings (s : DeviceSettings)
| SAVE_Provision (validated_data : dict).

Definition is_save (q : query) : bool :=
  match q with
  | SELECT_DeviceSettings => false
  | SAVE_DeviceSettings _ | SAVE_Provision _ => true
  end.

Definition handler (A : Type) : Type :=
  database -> outcome A * database * list query.

#[global] Instance handler_ret : MRet handler := fun _ a db => (Returned a, db, []).
#[global] Instance handler_bind : MBind handler := fun _ _ f m db =>
  match m db with
  | (Returned a, db', qs) =>
      match f a db' with
      | (r, db'', qs') => (r, db'', (qs ++ qs')%list)
      end
  | (Raised e, db', qs) => (Raised e, db', qs)
  end.

Definition lift {A : Type} (o : outcome A) : handler A := fun db => (o, db, []).

(** ** The process environment *)

(** The row [InstanceIDModel.get_or_create_current_instance()] returns. *)
Record InstanceIDModel := MkInstanceIDModel {
  id : string;
  platform : string
}.

(** What the views read outside the database: [kolibri.__version__],
    [kolibri.utils.server.get_urls()] and [installation_type()],
    [OPTIONS], the Django [settings], the morango instance, the file
    system, [local_now()] and [sys.version_info].

    [kolibri.utils.system.get_free_space(path)] goes from a path that
    does not exist to its parent until it finds one that does, and
    measures the file system there; it raises when it ends at the
    empty path.  [get_free_space] is the number it returns ([None]
    for a call without a path, which measures the Kolibri home), and
    [path_resolves] tells whether the walk from a path ends at a path
    that exists.  It does for the Kolibri home and for [CONTENT_DIR],
    which are absolute. *)
Record environment := Environment {
  kolibri_version : string;
  get_urls : Z * list string;
  CONTENT_DIR : string;
  URL_PATH_PREFIX : string;
  DATABASES_default_ENGINE : string;
  DATABASES_default_NAME : string;
  current_instance : InstanceIDModel;
  get_free_space : option string -> Z;
  path_resolves : string -> bool;
  local_now : Z;
  TIME_ZONE : string;
  installation_type : string;
  version_info : Z * Z * Z
}.

(** ** Serializers (serializers.py), as the views use them *)

(** [DeviceSettingsSerializer(settings, data=...)]: validation gives
    the errors or the validated data, [save()] saves the instance
    with the attributes [update] sets, and [.data] is
    [to_representation] of the instance. *)
Class DeviceSettingsSerializer := {
  run_validation : DeviceSettings -> dict -> ordered_errors + dict;
  update : DeviceSettings -> dict -> DeviceSettings;
  to_representation : DeviceSettings -> dict
}.

(** What [DeviceSettings.full_clean()] does to the columns other than
    [name], and Python's [str] of a list and of a [datetime]. *)
Class DeviceSettingsModel := {
  clean_other_fields : dict -> error_dict + dict;
  str_other : value -> string
}.

(** [DeviceProvisionSerializer]: [save()] runs the serializer's
    [create] on the validated data, which writes to the database and
    returns what it made; the output serializer renders that. *)
Class DeviceProvisionSerializer := {
  provision_validation : database -> dict -> error_dict + dict;
  serializer_create : dict -> database -> dict * database;
  provision_representation : dict -> dict
}.

(** [kolibri.core.device.utils.get_device_setting(setting, default)] *)
Class DeviceUtils := {
  get_device_setting : database -> string -> value -> value
}.

(** Python truth of a value. *)
Definition truthy (v : value) : bool :=
  match v with
  | VNone => false
  | VBool b => b
  | VInt n => negb (n =? 0)
  | VStr s => negb (String.eqb s "")
  | VDateTime _ => true
  | VList l => match l with [] => false | _ :: _ => true end
  end.

(** ** The DeviceSettings manager and save() (models.py) *)

(** [DeviceSettingsManager.get()]: the cached instance when the cache
    has one, and otherwise the row, which it puts in the cache. *)
Definition DeviceSettings_objects_get : handler DeviceSettings := fun db =>
  match device_settings_cache db with
  | Some s => (Returned s, db, [])
  | None =>
      match device_settings db with
      | Some s => (Returned s, set_device_settings_cache s db, [SELECT_DeviceSettings])
      | None => (Raised DoesNotExist, db, [SELECT_DeviceSettings])
      end
  end.

(** [CharField.to_python]: a [str] or [None] as it is, [str(value)]
    of anything else. *)
Definition CharField_to_python `{DeviceSettingsModel} (v : value) : option string :=
  match v with
  | VNone => None
  | VStr s => Some s
  | VBool true => Some "True"
  | VBool false => Some "False"
  | VInt n => Some (pretty n)
  | VDateTime _ | VList _ => Some (str_other v)
  end.

(** [name = models.CharField(max_length=50, ...)] *)
Definition name_max_length : nat := 50.

(** [CharField.clean] for [name]: conversion, then the null and blank
    checks, then the length validator. *)
Definition clean_name `{DeviceSettingsModel} (v : value) : list string + value :=
  match CharField_to_python v with
  | None => inl ["This field cannot be null."]
  | Some s =>
      if String.eqb s "" then inl ["This field cannot be blank."]
      else if (name_max_length <? String.length s)%nat
      then inl ["Ensure this value has at most 50 characters (it has "
                ++ pretty (String.length s) ++ ")."]
      else inr (VStr s)
  end.

(** [full_clean()]: every column is cleaned and set to its cleaned
    value, and the errors of all of them are raised together. *)
Definition full_clean `{DeviceSettingsModel} (s : DeviceSettings) : outcome DeviceSettings :=
  match clean_name (name s), clean_other_fields (other_fields s) with
  | inr cleaned_name, inr cleaned_fields =>
      Returned {| name := cleaned_name; other_fields := cleaned_fields |}
  | inl messages, inr _ =>
      Raised (DjangoValidationError {[ "name" := messages ]})
  | inr _, inl errors => Raised (DjangoValidationError errors)
  | inl messages, inl errors =>
      Raised (DjangoValidationError (<[ "name" := messages ]> errors))
  end.

(** [settings.save()]: [full_clean()], which may raise and otherwise
    leaves the cleaned values in the instance, then the write of the
    row and of the cache entry.  The instance as it is after the call
    is returned. *)
Definition DeviceSettings_save `{DeviceSettingsModel} (s : DeviceSettings)
  : handler DeviceSettings := fun db =>
  match full_clean s with
  | Returned cleaned =>
      (Returned cleaned,
       set_device_settings_cache cleaned (set_device_settings cleaned db),
       [SAVE_DeviceSettings cleaned])
  | Raised e => (Raised e, db, [])
  end.

(** [kolibri.utils.system.get_free_space] on a path of the caller's. *)
Definition get_free_space_of_path (env : environment) (path : string) : outcome Z :=
  if negb (String.eqb path "") && path_resolves env path
  then Returned (get_free_space env (Some path))
  else Raised (Exception "Could not calculate free space").

(** ** DeviceProvisionView (api.py, lines 52-61) *)

Module DeviceProvisionView.
Section View.
Context `{DeviceProvisionSerializer}.

(** [serializer.is_valid(raise_exception=True)] *)
Definition is_valid_or_raise (initial_data : dict) : handler dict := fun db =>
  match provision_validation db initial_data with
  | inr validated_data => (Returned validated_data, db, [])
  | inl errors => (Raised (ValidationError errors), db, [])
  end.

(** [serializer.save()] *)
Definition save (validated_data : dict) : handler dict := fun db =>
  let '(saved, db') := serializer_create validated_data db in
  (Returned saved, db', [SAVE_Provision validated_data]).

Definition create (req : request) : handler response :=
  validated_data ← is_valid_or_raise (data req);
  saved ← save validated_data;
  mret (Response (provision_representation saved) HTTP_201_CREATED).

End View.
End DeviceProvisionView.

(** ** FreeSpaceView (api.py, lines 64-76) *)

Module FreeSpaceView.

Definition list (env : environment) (req : request) : outcome response :=
  let path := query_params req !! "path" in
  free ←
    match path with
    | None => Returned (get_free_space env None)
    | Some p =>
        if String.eqb p "Content"
        then Returned (get_free_space env (Some (CONTENT_DIR env)))
        else get_free_space_of_path env p
    end;
  mret (Response {[ "freespace" := VInt free ]} HTTP_200_OK).

End FreeSpaceView.

(** ** DeviceInfoView (api.py, lines 79-147) *)

Module DeviceInfoView.

Definition is_local (url : string) : bool :=
  contains "127.0.0.1" url || contains "localhost" url.

(** Lines 88-93: the URLs of the server, or the current URL when
    [get_urls] has none (an empty list is false). *)
Definition served_urls (env : environment) (req : request) : list string :=
  let urls := snd (get_urls env) in
  match urls with
  | [] => [build_absolute_uri req (URL_PATH_PREFIX env)]
  | _ :: _ => urls
  end.

(** Lines 95-102: the value stored under ["urls"]. *)
Definition reported_urls (env : environment) (req : request) : list string :=
  let urls := served_urls env req in
  let filtered_urls := List.filter (fun url => negb (is_local url)) urls in
  match filtered_urls with
  | [] => urls
  | _ :: _ => filtered_urls
  end.

(** Lines 104-112. *)
Definition database_path (env : environment) : string :=
  let db_engine := DATABASES_default_ENGINE env in
  if endswith db_engine "sqlite3" then DATABASES_default_NAME env
  else if endswith db_engine "postgresql" then "postgresql"
  else "unknown".

(** Lines 128-130. *)
Definition python_version (env : environment) : string :=
  let '(major, minor, micro) := version_info env in
  pretty major ++ "." ++ pretty minor ++ "." ++ pretty micro.

Definition keys_to_remove : list string :=
  ["urls"; "database_path"; "device_id"; "os"; "server_time";
   "server_timezone"; "installer"; "python_version"].

Definition get (env : environment) (req : request) : outcome response :=
  let info : dict := ∅ in
  let info := <["version" := VStr (kolibri_version env)]> info in
  let info := <["urls" := VList (VStr <$> reported_urls env req)]> info in
  let info := <["database_path" := VStr (database_path env)]> info in
  let instance_model := current_instance env in
  let info := <["device_id" := VStr (id instance_model)]> info in
  let info := <["os" := VStr (platform instance_model)]> info in
  let info :=
    <["content_storage_free_space" :=
        VInt (get_free_space env (Some (CONTENT_DIR env)))]> info in
  let info := <["server_time" := VDateTime (local_now env)]> info in
  let info := <["server_timezone" := VStr (TIME_ZONE env)]> info in
  let info := <["installer" := VStr (installation_type env)]> info in
  let info := <["python_version" := VStr (python_version env)]> info in
  info ←
    (if negb (is_superuser (request_user req))
     then delitems info keys_to_remove
     else Returned info);
  mret (Response info HTTP_200_OK).

End DeviceInfoView.

(** ** DeviceSettingsView (api.py, lines 150-167) *)

Module DeviceSettingsView.
Section View.
Context `{DeviceSettingsSerializer} `{DeviceSettingsModel}.

Definition get (req : request) : handler response :=
  settings ← DeviceSettings_objects_get;
  mret (Response (to_representation settings) HTTP_200_OK).

(** [serializer.is_valid()]: the errors of the validation, which make
    the data invalid unless there are none, and the validated data,
    empty when the validation raised. *)
Definition is_valid (settings : DeviceSettings) (initial_data : dict)
  : ordered_errors * dict :=
  match run_validation settings initial_data with
  | inl errors => (errors, ∅)
  | inr validated_data => ([], validated_data)
  end.

Definition patch (req : request) : handler response :=
  settings ← DeviceSettings_objects_get;
  match is_valid settings (data req) with
  | ((_ :: _) as errors, _) => mret (HttpResponseBadRequest (joined_content errors))
  | ([], validated_data) =>
      settings ← DeviceSettings_save (update settings validated_data);
      mret (Response (to_representation settings) HTTP_200_OK)
  end.

End View.
End DeviceSettingsView.

(** ** DeviceNameView (api.py, lines 170-181) *)

Module DeviceNameView.

Definition set_name (v : value) (s : DeviceSettings) : DeviceSettings :=
  {| name := v; other_fields := other_fields s |}.

Definition get (req : request) : handler response :=
  settings ← DeviceSettings_objects_get;
  mret (Response {[ "name" := name settings ]} HTTP_200_OK).

Definition patch `{DeviceSettingsModel} (req : request) : handler response :=
  settings ← DeviceSettings_objects_get;
  new_name ← lift (getitem (data req) "name");
  settings ← DeviceSettings_save (set_name new_name settings);
  mret (Response {[ "name" := name settings ]} HTTP_200_OK).

End DeviceNameView.

(** ** Sync status buckets (api.py, lines 200-221) *)

Definition RECENTLY_SYNCED : string := "RECENTLY_SYNCED".
Definition SYNCING : string := "SYNCING".
Definition QUEUED : string := "QUEUED".
Definition NOT_RECENTLY_SYNCED : string := "NOT_RECENTLY_SYNCED".

Definition buckets : list string :=
  [SYNCING; QUEUED; RECENTLY_SYNCED; NOT_RECENTLY_SYNCED].

(** A [datetime] is counted in microseconds, the resolution Python
    gives it; so is a [timedelta], which is signed. *)
Definition timedelta_minutes (minutes : Z) : Z := minutes * 60 * 1000000.

(** The item [map_status] is given: [status["active"]],
    [status["queued"]] and [status["last_synced"]], the last being
    [None] for a user without a sync session. *)
Record sync_status := SyncStatus {
  active : bool;
  queued : bool;
  last_synced : option Z
}.

(** [map_status]; [now] is the reading of [timezone.now()].  A
    [datetime] is true, [None] is false, and a function that falls
    off its last branch returns [None]. *)
Definition map_status (now : Z) (status : sync_status) : option string :=
  if active status then Some SYNCING
  else if queued status then Some QUEUED
  else match last_synced status with
       | Some t =>
           if now - t <? timedelta_minutes 15
           then Some RECENTLY_SYNCED
           else Some NOT_RECENTLY_SYNCED
       | None => None
       end.

(** ** UserSyncStatusViewSet (api.py, lines 224-251) *)

Module UserSyncStatusViewSet.

(** The two querysets [get_queryset] can return; a queryset is a
    description of rows, read when it is evaluated. *)
Inductive queryset :=
| UserSyncStatus_objects_none
| UserSyncStatus_objects_all.

Definition evaluate (db : database) (qs : queryset) : list dict :=
  match qs with
  | UserSyncStatus_objects_none => []
  | UserSyncStatus_objects_all => user_sync_statuses db
  end.

(** [DynamicNetworkLocation.objects.filter(subset_of_users_device=False).exists()] *)
Definition full_device_location_exists (db : database) : bool :=
  existsb (fun loc => negb (subset_of_users_device loc))
          (dynamic_network_locations db).

Definition get_queryset `{DeviceUtils} (db : database) : queryset :=
  if truthy (get_device_setting db "subset_of_users_device" (VBool false))
     && negb (full_device_location_exists db)
  then UserSyncStatus_objects_none
  else UserSyncStatus_objects_all.

End UserSyncStatusViewSet.

(** ** Instances and states for the examples *)

Module Sample.

(** A settings serializer with one writable field, [language_id],
    which must be a string. *)
Definition settings_serializer : DeviceSettingsSerializer := {|
  run_validation _ d :=
    match d !! "language_id" with
    | Some (VStr l) => inr {[ "language_id" := VStr l ]}
    | Some _ => inl [("language_id", ["Not a valid string."])]
    | None => inl [("language_id", ["This field is required."])]
    end;
  update s validated_data :=
    {| name := name s; other_fields := validated_data ∪ other_fields s |};
  to_representation s := <[ "name" := name s ]> (other_fields s)
|}.

(** A provisioning serializer that asks for a [device_name] and
    writes the settings row. *)
Definition provision_serializer : DeviceProvisionSerializer := {|
  provision_validation _ d :=
    match d !! "device_name" with
    | Some (VStr n) => inr {[ "device_name" := VStr n ]}
    | _ => inl {[ "device_name" := ["This field is required."] ]}
    end;
  serializer_create validated_data db :=
    (validated_data,
     set_device_settings
       {| name := default VNone (validated_data !! "device_name");
          other_fields := ∅ |} db);
  provision_representation saved := saved
|}.

(** A model whose other columns are clean as they are. *)
Definition settings_model : DeviceSettingsModel := {|
  clean_other_fields fields := inr fields;
  str_other _ := "[]"
|}.

(** [get_device_setting] reading the stored row, and giving the
    default when there is none. *)
Definition device_utils : DeviceUtils := {|
  get_device_setting db setting default_value :=
    match device_settings db with
    | Some s => default default_value (other_fields s !! setting)
    | None => default_value
    end
|}.

Definition settings : DeviceSettings :=
  {| name := VStr "lab";
     other_fields := {[ "language_id" := VStr "en";
                        "subset_of_users_device" := VBool true ]} |}.

Definition db : database :=
  {| device_settings := Some settings;
     dynamic_network_locations := [];
     user_sync_statuses := [ {[ "user" := VInt 7; "queued" := VBool false ]} ];
     other_tables := ∅;
     device_settings_cache := None |}.

(** The same tables with the row in the cache. *)
Definition warm_db : database := set_device_settings_cache settings db.

Definition empty_db : database :=
  {| device_settings := None;
     dynamic_network_locations := [];
     user_sync_statuses := [];
     other_tables := ∅;
     device_settings_cache := None |}.

Definition learner : user := {| is_superuser := false |}.
Definition admin : user := {| is_superuser := true |}.

Definition req (d : dict) (q : gmap string string) (u : user) : request :=
  {| data := d; query_params := q; request_user := u;
     build_absolute_uri := fun location => "http://kolibri.lan" ++ location |}.

Definition env : environment :=
  {| kolibri_version := "0.15.0";
     get_urls := (0, ["http://127.0.0.1:8080/"; "http://192.168.1.5:8080/"]);
     CONTENT_DIR := "/home/kolibri/content";
     URL_PATH_PREFIX := "/";
     DATABASES_default_ENGINE := "django.db.backends.sqlite3";
     DATABASES_default_NAME := "/home/kolibri/db.sqlite3";
     current_instance := {| id := "a1b2"; platform := "Linux" |};
     get_free_space := fun path =>
       match path with
       | None => 100
       | Some p => if String.eqb p "/home/kolibri/content" then 4096 else 7
       end;
     path_resolves := String.prefix "/";
     local_now := 1000;
     TIME_ZONE := "UTC";
     installation_type := "deb";
     version_info := (3, 6, 9) |}.

(** Another server with the same version and the same free space in
    its content directory, and nothing else in common. *)
Definition other_env : environment :=
  {| kolibri_version := "0.15.0";
     get_urls := (1, []);
     CONTENT_DIR := "D:/content";
     URL_PATH_PREFIX := "/kolibri/";
     DATABASES_default_ENGINE := "django.db.backends.postgresql";
     DATABASES_default_NAME := "kolibri";
     current_instance := {| id := "ffff"; platform := "Windows" |};
     get_free_space := fun _ => 4096;
     path_resolves := fun _ => true;
     local_now := 2000;
     TIME_ZONE := "Europe/Sofia";
     installation_type := "exe";
     version_info := (3, 9, 1) |}.

End Sample.

(** ** UserSyncStatusViewSet.annotate_queryset and the status column
    (api.py, lines 230-239 and 253-265) *)

Module SyncAnnotation.

(** The rows the annotations read: a [UserSyncStatus] with its
    nullable [sync_session] key, the [SyncSession] rows by key, and
    the [TransferSession] rows. *)
Record UserSyncStatus := MkUserSyncStatus {
  uss_user : string;
  uss_queued : bool;
  uss_sync_session : option string
}.

Record SyncSession := MkSyncSession {
  last_activity_timestamp : Z
}.

Record TransferSession := MkTransferSession {
  transfer_sync_session : string;
  transfer_active : bool
}.

(** The annotated query groups the rows and asks for no order:
    [grouped_order] is the order the database gives them in. *)
Record sync_tables := SyncTables {
  sync_sessions : gmap string SyncSession;
  transfer_sessions : list TransferSession;
  grouped_order : list UserSyncStatus -> list UserSyncStatus;
  grouped_order_permutation : forall rows, grouped_order rows ≡ₚ rows
}.

(** The SQL aggregate [Max]: [NULL] over no rows. *)
Definition Max (l : list Z) : option Z :=
  match l with
  | [] => None
  | t :: l' => Some (fold_left Z.max l' t)
  end.

(** The rows the join [sync_session__last_activity_timestamp] gives
    one [UserSyncStatus]: the session its key names, if it names one. *)
Definition joined_timestamps (tb : sync_tables) (r : UserSyncStatus) : list Z :=
  match uss_sync_session r with
  | Some key =>
      match sync_sessions tb !! key with
      | Some session => [last_activity_timestamp session]
      | None => []
      end
  | None => []
  end.

(** [TransferSession.objects.filter(sync_session=OuterRef("sync_session"),
    active=True)]; a [NULL] key equals no key. *)
Definition active_transfer_sessions (tb : sync_tables) (r : UserSyncStatus)
  : list TransferSession :=
  match uss_sync_session r with
  | Some key =>
      List.filter
        (fun t => String.eqb (transfer_sync_session t) key && transfer_active t)
        (transfer_sessions tb)
  | None => []
  end.

(** [Exists(subquery)] *)
Definition Exists {A : Type} (rows : list A) : bool :=
  match rows with
  | [] => false
  | _ :: _ => true
  end.

(** A row with the two annotations. *)
Record annotated := MkAnnotated {
  row : UserSyncStatus;
  ann_last_synced : option Z;
  ann_active : bool
}.

Definition annotate_queryset (tb : sync_tables) (queryset : list UserSyncStatus)
  : list annotated :=
  let queryset :=
    List.map (fun r => (r, Max (joined_timestamps tb r)))
             (grouped_order tb queryset) in
  let queryset :=
    List.map (fun '(r, last) =>
                {| row := r;
                   ann_last_synced := last;
                   ann_active := Exists (active_transfer_sessions tb r) |})
             queryset in
  queryset.

(** The [values] of an annotated row that [map_status] reads. *)
Definition values (a : annotated) : sync_status :=
  {| queued := uss_queued (row a);
     last_synced := ann_last_synced a;
     active := ann_active a |}.

(** [field_map]: the ["status"] of an item is [map_status] of it. *)
Definition status (now : Z) (a : annotated) : option string :=
  map_status now (values a).

(** The statuses of a queryset, by user. *)
Definition statuses (now : Z) (tb : sync_tables) (queryset : list UserSyncStatus)
  : list (string * option string) :=
  List.map (fun a => (uss_user (row a), status now a))
           (annotate_queryset tb queryset).

End SyncAnnotation.

Module SampleSync.

(** Tables of a database that gives the rows without a sync session
    first. *)
Definition tables : SyncAnnotation.sync_tables :=
  {| SyncAnnotation.sync_sessions :=
       {[ "s1" := SyncAnnotation.MkSyncSession 100;
          "s2" := SyncAnnotation.MkSyncSession 5000000000 ]};
     SyncAnnotation.transfer_sessions :=
       [ SyncAnnotation.MkTransferSession "s1" false;
         SyncAnnotation.MkTransferSession "s2" true ];
     SyncAnnotation.grouped_order := fun rows =>
       (filter (fun r => SyncAnnotation.uss_sync_session r = None) rows
        ++ filter (fun r => ~ SyncAnnotation.uss_sync_session r = None) rows)%list;
     SyncAnnotation.grouped_order_permutation :=
       filter_app_complement
         (fun r => SyncAnnotation.uss_sync_session r = None) |}.

Definition rows : list SyncAnnotation.UserSyncStatus :=
  [ SyncAnnotation.MkUserSyncStatus "ana" false (Some "s1");
    SyncAnnotation.MkUserSyncStatus "boris" true (Some "s2");
    SyncAnnotation.MkUserSyncStatus "vera" false None;
    SyncAnnotation.MkUserSyncStatus "gosho" true None;
    SyncAnnotation.MkUserSyncStatus "dana" false (Some "gone") ].

End SampleSync.

(** * Part II: properties *)

(** ** map_status *)

Lemma buckets_distinct : NoDup buckets.
Proof.
  apply (bool_decide_unpack _). vm_compute. exact I.
Qed.

(** Fifteen minutes in microseconds. *)
Lemma fifteen_minutes : timedelta_minutes 15 = 900000000.
Proof. reflexivity. Qed.

Example map_status_active :
  map_status 1000 (SyncStatus true true (Some 0)) = Some "SYNCING".
Proof. reflexivity. Qed.

Example map_status_queued :
  map_status 1000 (SyncStatus false true (Some 0)) = Some "QUEUED".
Proof. reflexivity. Qed.

Example map_status_just_under :
  map_status 899999999 (SyncStatus false false (Some 0)) = Some "RECENTLY_SYNCED".
Proof. reflexivity. Qed.

Example map_status_at_limit :
  map_status 900000000 (SyncStatus false false (Some 0)) = Some "NOT_RECENTLY_SYNCED".
Proof. reflexivity. Qed.

(** C1, as stated, fails: a user who is neither syncing nor queued and
    has never synced gets no bucket at all. *)
Lemma map_status_never_synced_no_bucket :
  ~ (exists b, b ∈ buckets /\ map_status 0 (SyncStatus false false None) = Some b).
Proof. intros (b & _ & Hb). discriminate Hb. Qed.

(** C1 (amended): [map_status] returns one of the four buckets, except
    for a record that is neither active nor queued and has no
    [last_synced], for which it returns [None]. *)
Theorem map_status_bucket_or_none (now : Z) (status : sync_status) :
  (active status = false /\ queued status = false /\ last_synced status = None
   /\ map_status now status = None)
  \/ ((active status = true \/ queued status = true \/ is_Some (last_synced status))
      /\ exists b, b ∈ buckets /\ map_status now status = Some b).
Proof.
  destruct status as [a q l]; unfold map_status, buckets; cbn.
  destruct a; [right; split; [auto | exists SYNCING; split; [set_solver | done]] |].
  destruct q; [right; split; [auto | exists QUEUED; split; [set_solver | done]] |].
  destruct l as [t|]; [right | left; done].
  split; [right; right; eauto |].
  destruct (now - t <? timedelta_minutes 15);
    [exists RECENTLY_SYNCED | exists NOT_RECENTLY_SYNCED]; split; set_solver.
Qed.

(** C2: the precedence active > queued > last_synced, with the strict
    fifteen-minute limit, and [None] when nothing is set. *)
Theorem map_status_precedence (now : Z) (status : sync_status) :
  (active status = true -> map_status now status = Some SYNCING)
  /\ (active status = false -> queued status = true ->
      map_status now status = Some QUEUED)
  /\ (forall t, active status = false -> queued status = false ->
      last_synced status = Some t ->
      (map_status now status = Some RECENTLY_SYNCED <-> now - t < timedelta_minutes 15)
      /\ (map_status now status = Some NOT_RECENTLY_SYNCED <-> ~ now - t < timedelta_minutes 15))
  /\ (active status = false -> queued status = false ->
      last_synced status = None -> map_status now status = None).
Proof.
  destruct status as [a q l]; unfold map_status; cbn.
  repeat split; intros; subst; try done.
  - destruct (Z.ltb_spec (now - t) (timedelta_minutes 15)); [done | discriminate].
  - destruct (Z.ltb_spec (now - t) (timedelta_minutes 15)); [done | lia].
  - destruct (Z.ltb_spec (now - t) (timedelta_minutes 15)); [discriminate | lia].
  - destruct (Z.ltb_spec (now - t) (timedelta_minutes 15)); [lia | done].
Qed.

(** ** Strings *)

Lemma append_nil_l (t : string) : ("" ++ t)%string = t.
Proof. reflexivity. Qed.

Lemma append_cons (c : ascii) (a t : string) :
  (String c a ++ t)%string = String c (a ++ t).
Proof. reflexivity. Qed.

Lemma prefix_iff (a s : string) :
  String.prefix a s = true <-> exists t, s = (a ++ t)%string.
Proof.
  revert a; induction s as [|c' s IH]; intros [|c a]; cbn;
    rewrite ?append_nil_l, ?append_cons.
  - split; [intros _; exists ""; reflexivity | reflexivity].
  - split; [discriminate | intros (t & Ht); discriminate Ht].
  - split; [intros _; eexists; reflexivity | reflexivity].
  - destruct (Ascii.ascii_dec c c') as [->|Hne].
    + rewrite IH. split; intros (t & Ht); exists t;
        rewrite ?append_cons in *; congruence.
    + split; [discriminate |].
      intros (t & Ht). rewrite append_cons in Ht. congruence.
Qed.

(** [contains] is Python's [needle in s]. *)
Lemma contains_iff (needle s : string) :
  contains needle s = true <->
  exists pre post, s = (pre ++ needle ++ post)%string.
Proof.
  induction s as [|c s IH]; cbn [contains]; rewrite orb_true_iff, prefix_iff.
  - split.
    + intros [(t & Ht) | Hf]; [exists "", t; exact Ht | discriminate].
    + intros (pre & post & Heq). left. exists post.
      destruct pre; [exact Heq | discriminate].
  - rewrite IH. split.
    + intros [(t & Ht) | (pre & post & Heq)]; [exists "", t; exact Ht |].
      exists (String c pre), post. rewrite append_cons. by rewrite Heq.
    + intros ([|c' pre] & post & Heq); [left; exists post; exact Heq |].
      right. exists pre, post. rewrite append_cons in Heq. congruence.
Qed.

Example contains_localhost : contains "localhost" "http://localhost:8080/" = true.
Proof. reflexivity. Qed.

Example endswith_sqlite3 : endswith "django.db.backends.sqlite3" "sqlite3" = true.
Proof. reflexivity. Qed.

Example endswith_longer_suffix : endswith "lite3" "sqlite3" = false.
Proof. reflexivity. Qed.

(** ** Running handlers *)

Lemma run_bind_returned {A B : Type} (m : handler A) (f : A -> handler B)
    (db db' db'' : database) (a : A) (r : outcome B) (qs qs' : list query) :
  m db = (Returned a, db', qs) ->
  f a db' = (r, db'', qs') ->
  (m ≫= f) db = (r, db'', (qs ++ qs')%list).
Proof. intros Hm Hf. unfold mbind, handler_bind. by rewrite Hm, Hf. Qed.

Lemma run_bind_raised {A B : Type} (m : handler A) (f : A -> handler B)
    (db db' : database) (e : exception) (qs : list query) :
  m db = (Raised e, db', qs) ->
  (m ≫= f) db = (Raised e, db', qs).
Proof. intros Hm. unfold mbind, handler_bind. by rewrite Hm. Qed.

Lemma handler_ret_bind {A B : Type} (a : A) (f : A -> handler B) (db : database) :
  (mret a ≫= f) db = f a db.
Proof.
  unfold mbind, handler_bind, mret, handler_ret.
  by destruct (f a db) as [[r db'] qs].
Qed.

Lemma handler_bind_ret {A : Type} (m : handler A) (db : database) :
  (m ≫= mret) db = m db.
Proof.
  unfold mbind, handler_bind, mret, handler_ret.
  destruct (m db) as [[[a|e] db'] qs]; [| done].
  by rewrite app_nil_r.
Qed.

(** The manager's [get()], case by case. *)
Lemma run_get_warm (db : database) (s : DeviceSettings) :
  device_settings_cache db = Some s ->
  DeviceSettings_objects_get db = (Returned s, db, []).
Proof. intros Hc. unfold DeviceSettings_objects_get. by rewrite Hc. Qed.

Lemma run_get_cold (db : database) (s : DeviceSettings) :
  device_settings_cache db = None ->
  device_settings db = Some s ->
  DeviceSettings_objects_get db
  = (Returned s, set_device_settings_cache s db, [SELECT_DeviceSettings]).
Proof. intros Hc Hs. unfold DeviceSettings_objects_get. by rewrite Hc, Hs. Qed.

Lemma run_get_none (db : database) :
  device_settings_cache db = None ->
  device_settings db = None ->
  DeviceSettings_objects_get db = (Raised DoesNotExist, db, [SELECT_DeviceSettings]).
Proof. intros Hc Hs. unfold DeviceSettings_objects_get. by rewrite Hc, Hs. Qed.

(** With a row stored and a coherent cache, the manager gives the row
    and leaves a state with the same tables and the row in the cache;
    it asks the database only when the cache is cold. *)
Lemma run_get_coherent (db : database) (s : DeviceSettings) :
  device_settings db = Some s ->
  cache_coherent db ->
  exists db' qs,
    DeviceSettings_objects_get db = (Returned s, db', qs)
    /\ set_device_settings_cache s db' = set_device_settings_cache s db
    /\ device_settings db' = Some s
    /\ (qs = [] \/ qs = [SELECT_DeviceSettings]).
Proof.
  intros Hs Hco. destruct (device_settings_cache db) as [c|] eqn:Hc.
  - specialize (Hco c Hc). rewrite Hs in Hco. injection Hco as <-.
    exists db, []. rewrite (run_get_warm db s Hc). auto.
  - exists (set_device_settings_cache s db), [SELECT_DeviceSettings].
    rewrite (run_get_cold db s Hc Hs). auto.
Qed.

(** A write of the row or of the cache entry touches nothing else. *)
Lemma set_device_settings_frame (s : DeviceSettings) (db : database) :
  device_settings (set_device_settings s db) = Some s
  /\ dynamic_network_locations (set_device_settings s db) = dynamic_network_locations db
  /\ user_sync_statuses (set_device_settings s db) = user_sync_statuses db
  /\ other_tables (set_device_settings s db) = other_tables db
  /\ device_settings_cache (set_device_settings s db) = device_settings_cache db.
Proof. done. Qed.

Lemma set_device_settings_cache_frame (s : DeviceSettings) (db : database) :
  device_settings_cache (set_device_settings_cache s db) = Some s
  /\ device_settings (set_device_settings_cache s db) = device_settings db
  /\ dynamic_network_locations (set_device_settings_cache s db)
     = dynamic_network_locations db
  /\ user_sync_statuses (set_device_settings_cache s db) = user_sync_statuses db
  /\ other_tables (set_device_settings_cache s db) = other_tables db.
Proof. done. Qed.

(** The cleaning of [name]: what it accepts and what it makes of it. *)
Lemma clean_name_accepts `{DeviceSettingsModel} (v : value) (text : string) :
  CharField_to_python v = Some text ->
  text <> "" ->
  (String.length text <= name_max_length)%nat ->
  clean_name v = inr (VStr text).
Proof.
  intros Hp Hne Hlen. unfold clean_name. rewrite Hp.
  destruct (String.eqb_spec text ""); [done |].
  by destruct (Nat.ltb_spec name_max_length (String.length text)); [lia |].
Qed.

Lemma clean_name_rejects `{DeviceSettingsModel} (v : value) (messages : list string) :
  clean_name v = inl messages ->
  CharField_to_python v = None
  \/ CharField_to_python v = Some ""
  \/ exists text, CharField_to_python v = Some text
                  /\ (name_max_length < String.length text)%nat.
Proof.
  unfold clean_name. destruct (CharField_to_python v) as [text|]; [| by left].
  destruct (String.eqb_spec text "") as [->|]; [by right; left |].
  destruct (Nat.ltb_spec name_max_length (String.length text)); [| discriminate].
  intros _. right; right. eauto.
Qed.

Example clean_name_number :
  @clean_name Sample.settings_model (VInt 5) = inr (VStr "5").
Proof. reflexivity. Qed.

Example clean_name_too_long :
  @clean_name Sample.settings_model
    (VStr "123456789012345678901234567890123456789012345678901")
  = inl ["Ensure this value has at most 50 characters (it has 51)."].
Proof. reflexivity. Qed.

(** The two [PATCH] handlers after the manager has given an instance,
    and when it has none to give. *)
Lemma settings_patch_run `{DeviceSettingsSerializer} `{DeviceSettingsModel}
    (req : request) (db db1 : database) (s : DeviceSettings) (qs1 : list query) :
  DeviceSettings_objects_get db = (Returned s, db1, qs1) ->
  DeviceSettingsView.patch req db
  = match DeviceSettingsView.is_valid s (data req) with
    | ((_ :: _) as errors, _) =>
        (Returned (HttpResponseBadRequest (joined_content errors)), db1, qs1)
    | ([], validated_data) =>
        match full_clean (update s validated_data) with
        | Returned cleaned =>
            (Returned (Response (to_representation cleaned) HTTP_200_OK),
             set_device_settings_cache cleaned (set_device_settings cleaned db1),
             (qs1 ++ [SAVE_DeviceSettings cleaned])%list)
        | Raised e => (Raised e, db1, qs1)
        end
    end.
Proof.
  intros Hget. unfold DeviceSettingsView.patch, mbind, handler_bind.
  rewrite Hget.
  destruct (DeviceSettingsView.is_valid s (data req)) as [[|e es] v]; cbn.
  - unfold DeviceSettings_save.
    destruct (full_clean (update s v)); cbn; by rewrite ?app_nil_r.
  - by rewrite app_nil_r.
Qed.

Lemma name_patch_run `{DeviceSettingsModel}
    (req : request) (db db1 : database) (s : DeviceSettings) (qs1 : list query) :
  DeviceSettings_objects_get db = (Returned s, db1, qs1) ->
  DeviceNameView.patch req db
  = match data req !! "name" with
    | None => (Raised (KeyError "name"), db1, qs1)
    | Some new_name =>
        match full_clean (DeviceNameView.set_name new_name s) with
        | Returned cleaned =>
            (Returned (Response {[ "name" := name cleaned ]} HTTP_200_OK),
             set_device_settings_cache cleaned (set_device_settings cleaned db1),
             (qs1 ++ [SAVE_DeviceSettings cleaned])%list)
        | Raised e => (Raised e, db1, qs1)
        end
    end.
Proof.
  intros Hget. unfold DeviceNameView.patch, mbind, handler_bind.
  rewrite Hget. unfold lift, getitem.
  destruct (data req !! "name") as [v|]; cbn; [| by rewrite app_nil_r].
  unfold DeviceSettings_save.
  destruct (full_clean (DeviceNameView.set_name v s)); cbn; by rewrite ?app_nil_r.
Qed.

Lemma settings_patch_unprovisioned `{DeviceSettingsSerializer} `{DeviceSettingsModel}
    (req : request) (db : database) :
  device_settings_cache db = None ->
  device_settings db = None ->
  DeviceSettingsView.patch req db = (Raised DoesNotExist, db, [SELECT_DeviceSettings]).
Proof. intros Hc Hs. apply run_bind_raised. by apply run_get_none. Qed.

Lemma name_patch_unprovisioned `{DeviceSettingsModel} (req : request) (db : database) :
  device_settings_cache db = None ->
  device_settings db = None ->
  DeviceNameView.patch req db = (Raised DoesNotExist, db, [SELECT_DeviceSettings]).
Proof. intros Hc Hs. apply run_bind_raised. by apply run_get_none. Qed.

(** The cleaning of an instance whose name is fit and whose other
    columns are clean as they are. *)
Lemma full_clean_fit `{DeviceSettingsModel} (s : DeviceSettings) (text : string) :
  CharField_to_python (name s) = Some text ->
  text <> "" ->
  (String.length text <= name_max_length)%nat ->
  clean_other_fields (other_fields s) = inr (other_fields s) ->
  full_clean s = Returned {| name := VStr text; other_fields := other_fields s |}.
Proof.
  intros Hp Hne Hlen Hother. unfold full_clean.
  by rewrite (clean_name_accepts _ text Hp Hne Hlen), Hother.
Qed.

(** ** DeviceSettingsView.patch *)

Example settings_patch_rejected :
  @DeviceSettingsView.patch Sample.settings_serializer Sample.settings_model
    (Sample.req {[ "language_id" := VInt 3 ]} ∅ Sample.admin) Sample.warm_db
  = (Returned (HttpResponseBadRequest "language_id"), Sample.warm_db, []).
Proof. reflexivity. Qed.

Example joined_content_two_fields :
  joined_content [("language_id", ["Not a valid string."]);
                  ("landing_page", ["Not a valid choice."; "Too long."])]
  = "language_idlanding_page".
Proof. reflexivity. Qed.

(** C3: with a settings row stored, data the serializer rejects give
    a 400 response and no save, and the row stays as it is; but the
    content of the response is made of the names of the fields in
    error alone, and the messages of the serializer are not in it. *)
Theorem settings_patch_bad_request_content
    `{DeviceSettingsSerializer} `{DeviceSettingsModel}
    (req : request) (db : database) (s : DeviceSettings) (errors : ordered_errors) :
  device_settings db = Some s ->
  cache_coherent db ->
  run_validation s (data req) = inl errors ->
  errors <> [] ->
  exists resp db' qs,
    DeviceSettingsView.patch req db = (Returned resp, db', qs)
    /\ status_code resp = 400
    /\ resp = HttpResponseBadRequest (String.concat "" (List.map fst errors))
    /\ device_settings db' = Some s
    /\ forallb (fun q => negb (is_save q)) qs = true.
Proof.
  intros Hs Hco Hv Hne.
  destruct (run_get_coherent db s Hs Hco) as (db1 & qs1 & Hget & _ & Hs1 & Hqs).
  rewrite (settings_patch_run req db db1 s qs1 Hget).
  unfold DeviceSettingsView.is_valid. rewrite Hv.
  destruct errors as [|e es]; [done |].
  eexists _, db1, qs1. split; [reflexivity |].
  repeat split; [done |]. by destruct Hqs as [-> | ->].
Qed.

Lemma settings_patch_bad_request_content_witness :
  exists resp db' qs,
    @DeviceSettingsView.patch Sample.settings_serializer Sample.settings_model
      (Sample.req ∅ ∅ Sample.admin) Sample.db = (Returned resp, db', qs)
    /\ status_code resp = 400
    /\ resp = HttpResponseBadRequest "language_id"
    /\ device_settings db' = Some Sample.settings
    /\ forallb (fun q => negb (is_save q)) qs = true.
Proof.
  apply (@settings_patch_bad_request_content
           Sample.settings_serializer Sample.settings_model
           (Sample.req ∅ ∅ Sample.admin) Sample.db Sample.settings
           [("language_id", ["This field is required."])]).
  - reflexivity.
  - intros c Hc. discriminate Hc.
  - reflexivity.
  - discriminate.
Defined.

(** ** DeviceProvisionView.create *)

Example provision_accepted :
  @DeviceProvisionView.create Sample.provision_serializer
    (Sample.req {[ "device_name" := VStr "lab"; "extra" := VInt 1 ]} ∅ Sample.learner)
    Sample.empty_db
  = (Returned (Response {[ "device_name" := VStr "lab" ]} 201),
     set_device_settings {| name := VStr "lab"; other_fields := ∅ |} Sample.empty_db,
     [SAVE_Provision {[ "device_name" := VStr "lab" ]}]).
Proof. reflexivity. Qed.

Example provision_rejected :
  @DeviceProvisionView.create Sample.provision_serializer
    (Sample.req ∅ ∅ Sample.learner) Sample.empty_db
  = (Raised (ValidationError {[ "device_name" := ["This field is required."] ]}),
     Sample.empty_db, []).
Proof. reflexivity. Qed.

(** C4: a payload that passes validation is saved and answered with
    201 and the serialized saved data; a payload that fails it raises
    the validation error, which the framework answers with 400, and
    nothing is saved: the database is as it was and no query was
    issued. *)
Theorem provision_create_validation `{DeviceProvisionSerializer}
    (req : request) (db : database) :
  (forall validated_data,
     provision_validation db (data req) = inr validated_data ->
     DeviceProvisionView.create req db
     = (Returned (Response (provision_representation
                              (fst (serializer_create validated_data db)))
                           HTTP_201_CREATED),
        snd (serializer_create validated_data db),
        [SAVE_Provision validated_data])
     /\ HTTP_201_CREATED = 201)
  /\ (forall errors,
     provision_validation db (data req) = inl errors ->
     DeviceProvisionView.create req db = (Raised (ValidationError errors), db, [])
     /\ exception_status (ValidationError errors) = 400).
Proof.
  split.
  - intros v Hv. split; [| reflexivity].
    unfold DeviceProvisionView.create, DeviceProvisionView.is_valid_or_raise,
      DeviceProvisionView.save, mbind, handler_bind, mret, handler_ret.
    rewrite Hv. by destruct (serializer_create v db).
  - intros errors Hv. split; [| reflexivity].
    unfold DeviceProvisionView.create.
    apply run_bind_raised.
    unfold DeviceProvisionView.is_valid_or_raise. by rewrite Hv.
Qed.

(** ** FreeSpaceView.list *)

Example free_space_content :
  FreeSpaceView.list Sample.env (Sample.req ∅ {[ "path" := "Content" ]} Sample.admin)
  = Returned (Response {[ "freespace" := VInt 4096 ]} 200).
Proof. reflexivity. Qed.

Example free_space_absolute_path :
  FreeSpaceView.list Sample.env (Sample.req ∅ {[ "path" := "/content" ]} Sample.admin)
  = Returned (Response {[ "freespace" := VInt 7 ]} 200).
Proof. reflexivity. Qed.

Example free_space_relative_path :
  FreeSpaceView.list Sample.env (Sample.req ∅ {[ "path" := "no/such" ]} Sample.admin)
  = Raised (Exception "Could not calculate free space").
Proof. reflexivity. Qed.

(** C5, as stated, fails: for [?path=] with nothing after it,
    [get_free_space] raises and the view returns no response. *)
Lemma free_space_empty_path_raises :
  ~ (exists f,
       FreeSpaceView.list Sample.env (Sample.req ∅ {[ "path" := "" ]} Sample.admin)
       = Returned (Response {[ "freespace" := VInt f ]} HTTP_200_OK)).
Proof. intros (f & Hf). discriminate Hf. Qed.

(** C5 (amended): the response is [{"freespace": f}], where [f] is the
    free space of the default location without a [path] parameter, of
    the content directory for ["Content"], and of the path itself
    otherwise, when [get_free_space] can measure it; when it cannot
    (the path is empty, or neither it nor a parent of it exists) the
    view raises what [get_free_space] raises. *)
Theorem free_space_list (env : environment) (req : request) :
  (query_params req !! "path" = None ->
   FreeSpaceView.list env req
   = Returned (Response {[ "freespace" := VInt (get_free_space env None) ]}
                        HTTP_200_OK))
  /\ (query_params req !! "path" = Some "Content" ->
      FreeSpaceView.list env req
      = Returned (Response
          {[ "freespace" := VInt (get_free_space env (Some (CONTENT_DIR env))) ]}
          HTTP_200_OK))
  /\ (forall p, query_params req !! "path" = Some p -> p <> "Content" ->
      (p <> "" -> path_resolves env p = true ->
       FreeSpaceView.list env req
       = Returned (Response {[ "freespace" := VInt (get_free_space env (Some p)) ]}
                            HTTP_200_OK))
      /\ (p = "" \/ path_resolves env p = false ->
          FreeSpaceView.list env req
          = Raised (Exception "Could not calculate free space"))).
Proof.
  unfold FreeSpaceView.list. split; [| split].
  - by intros ->.
  - by intros ->.
  - intros p -> Hne. unfold get_free_space_of_path.
    destruct (String.eqb_spec p "Content"); [done |].
    destruct (String.eqb_spec p "") as [->|Hp]; cbn.
    + split; [done | done].
    + destruct (path_resolves env p); split; try done; intros [? | ?]; done.
Qed.

(** ** DeviceNameView.patch *)

Example name_patch_missing_key :
  @DeviceNameView.patch Sample.settings_model
    (Sample.req ∅ ∅ Sample.admin) Sample.warm_db
  = (Raised (KeyError "name"), Sample.warm_db, []).
Proof. reflexivity. Qed.

Example name_patch_number :
  (@DeviceNameView.patch Sample.settings_model
     (Sample.req {[ "name" := VInt 5 ]} ∅ Sample.admin) Sample.warm_db).1.1
  = Returned (Response {[ "name" := VStr "5" ]} 200).
Proof. reflexivity. Qed.

Example name_patch_blank_name :
  @DeviceNameView.patch Sample.settings_model
    (Sample.req {[ "name" := VStr "" ]} ∅ Sample.admin) Sample.warm_db
  = (Raised (DjangoValidationError {[ "name" := ["This field cannot be blank."] ]}),
     Sample.warm_db, []).
Proof. reflexivity. Qed.




(** ** The GET handlers *)

Example name_get_unprovisioned :
  DeviceNameView.get (Sample.req ∅ ∅ Sample.admin) Sample.empty_db
  = (Raised DoesNotExist, Sample.empty_db, [SELECT_DeviceSettings]).
Proof. reflexivity. Qed.

Example name_get_warm :
  DeviceNameView.get (Sample.req ∅ ∅ Sample.admin) Sample.warm_db
  = (Returned (Response {[ "name" := VStr "lab" ]} 200), Sample.warm_db, []).
Proof. reflexivity. Qed.

(** C7, as stated, fails: a [GET] with the cache cold reads the row
    and puts it in the cache, which is a change of state, and a [GET]
    with the cache warm does not read the stored row at all. *)
Lemma get_cold_read_fills_cache :
  ~ (exists r qs,
       DeviceNameView.get (Sample.req ∅ ∅ Sample.admin) Sample.db
       = (r, Sample.db, qs))
  /\ ~ (exists r db',
         DeviceNameView.get (Sample.req ∅ ∅ Sample.admin) Sample.warm_db
         = (r, db', [SELECT_DeviceSettings])).
Proof.
  split.
  - intros (r & qs & Hrun).
    assert (Hcache : device_settings_cache
                       (DeviceNameView.get (Sample.req ∅ ∅ Sample.admin) Sample.db).1.2
                     = device_settings_cache Sample.db) by (by rewrite Hrun).
    discriminate Hcache.
  - intros (r & db' & Hrun). discriminate Hrun.
Qed.

(** C7 (amended): each GET handler gets the settings from the manager
    once and answers with their projection: the serialized settings,
    respectively [{"name": settings.name}].  With the cache warm there
    is no query and no change of state; with it cold there is one read
    of the stored row, which is then put in the cache, and nothing
    else changes: the row and every table are as they were. *)
Theorem get_handlers_read_through `{DeviceSettingsSerializer}
    (req : request) (db : database) :
  (forall s, device_settings_cache db = Some s ->
     DeviceSettingsView.get req db
     = (Returned (Response (to_representation s) HTTP_200_OK), db, [])
     /\ DeviceNameView.get req db
        = (Returned (Response {[ "name" := name s ]} HTTP_200_OK), db, []))
  /\ (forall s, device_settings_cache db = None -> device_settings db = Some s ->
     DeviceSettingsView.get req db
     = (Returned (Response (to_representation s) HTTP_200_OK),
        set_device_settings_cache s db, [SELECT_DeviceSettings])
     /\ DeviceNameView.get req db
        = (Returned (Response {[ "name" := name s ]} HTTP_200_OK),
           set_device_settings_cache s db, [SELECT_DeviceSettings])
     /\ device_settings (set_device_settings_cache s db) = device_settings db
     /\ dynamic_network_locations (set_device_settings_cache s db)
        = dynamic_network_locations db
     /\ user_sync_statuses (set_device_settings_cache s db) = user_sync_statuses db
     /\ other_tables (set_device_settings_cache s db) = other_tables db)
  /\ (device_settings_cache db = None -> device_settings db = None ->
     DeviceSettingsView.get req db
     = (Raised DoesNotExist, db, [SELECT_DeviceSettings])
     /\ DeviceNameView.get req db
        = (Raised DoesNotExist, db, [SELECT_DeviceSettings])).
Proof.
  unfold DeviceSettingsView.get, DeviceNameView.get.
  split; [| split].
  - intros s Hc. split;
      (erewrite run_bind_returned; [| by apply run_get_warm | reflexivity]);
      reflexivity.
  - intros s Hc Hs. split; [| split; [| done]];
      (erewrite run_bind_returned; [| by apply run_get_cold | reflexivity]);
      reflexivity.
  - intros Hc Hs. split;
      (erewrite run_bind_raised; [| by apply run_get_none]); reflexivity.
Qed.

(** ** UserSyncStatusViewSet.get_queryset *)

Lemma full_device_location_exists_iff (db : database) :
  UserSyncStatusViewSet.full_device_location_exists db = true <->
  exists loc, loc ∈ dynamic_network_locations db /\ subset_of_users_device loc = false.
Proof.
  unfold UserSyncStatusViewSet.full_device_location_exists.
  rewrite existsb_exists. split; intros (loc & Hin & Hloc); exists loc.
  - rewrite list_elem_of_In. by destruct (subset_of_users_device loc).
  - rewrite <- list_elem_of_In. by rewrite Hloc.
Qed.

Example queryset_subset_device_alone :
  @UserSyncStatusViewSet.get_queryset Sample.device_utils Sample.db
  = UserSyncStatusViewSet.UserSyncStatus_objects_none.
Proof. reflexivity. Qed.

Example queryset_unprovisioned :
  @UserSyncStatusViewSet.get_queryset Sample.device_utils Sample.empty_db
  = UserSyncStatusViewSet.UserSyncStatus_objects_all.
Proof. reflexivity. Qed.

(** C8: [get_queryset] returns [UserSyncStatus.objects.none()], which
    evaluates to no rows, exactly when the device setting
    [subset_of_users_device] is true and no [DynamicNetworkLocation]
    has [subset_of_users_device=False]; in every other case it returns
    [UserSyncStatus.objects.all()], which evaluates to every row. *)
Theorem get_queryset_none_iff `{DeviceUtils} (db : database) :
  (UserSyncStatusViewSet.get_queryset db
   = UserSyncStatusViewSet.UserSyncStatus_objects_none
   <-> truthy (get_device_setting db "subset_of_users_device" (VBool false)) = true
       /\ ~ exists loc, loc ∈ dynamic_network_locations db
                        /\ subset_of_users_device loc = false)
  /\ (~ (truthy (get_device_setting db "subset_of_users_device" (VBool false)) = true
         /\ ~ exists loc, loc ∈ dynamic_network_locations db
                          /\ subset_of_users_device loc = false) ->
      UserSyncStatusViewSet.get_queryset db
      = UserSyncStatusViewSet.UserSyncStatus_objects_all)
  /\ UserSyncStatusViewSet.evaluate db
       UserSyncStatusViewSet.UserSyncStatus_objects_none = []
  /\ UserSyncStatusViewSet.evaluate db
       UserSyncStatusViewSet.UserSyncStatus_objects_all = user_sync_statuses db.
Proof.
  assert (Hcond : truthy (get_device_setting db "subset_of_users_device" (VBool false))
                  && negb (UserSyncStatusViewSet.full_device_location_exists db) = true
                  <-> truthy (get_device_setting db "subset_of_users_device" (VBool false))
                      = true
                      /\ ~ exists loc, loc ∈ dynamic_network_locations db
                                       /\ subset_of_users_device loc = false).
  { rewrite andb_true_iff, negb_true_iff.
    rewrite <- full_device_location_exists_iff.
    by destruct (UserSyncStatusViewSet.full_device_location_exists db); intuition. }
  unfold UserSyncStatusViewSet.get_queryset.
  destruct (truthy _ && negb _) eqn:Hb.
  - split; [split; [intros _; by apply Hcond | done] |].
    split; [| done].
    intros Hn. destruct Hn. by apply Hcond.
  - split; [split; [discriminate |] | done].
    intros Hc. apply Hcond in Hc. discriminate.
Qed.

(** ** DeviceInfoView.get *)

Example python_version_sample : DeviceInfoView.python_version Sample.env = "3.6.9".
Proof. reflexivity. Qed.

Example database_path_sample :
  DeviceInfoView.database_path Sample.env = "/home/kolibri/db.sqlite3"
  /\ DeviceInfoView.database_path Sample.other_env = "postgresql".
Proof. split; reflexivity. Qed.

(** What a user who is not a superuser is shown. *)
Lemma device_info_learner (env : environment) (req : request) :
  is_superuser (request_user req) = false ->
  DeviceInfoView.get env req
  = Returned (Response
      {[ "version" := VStr (kolibri_version env);
         "content_storage_free_space" :=
           VInt (get_free_space env (Some (CONTENT_DIR env))) ]}
      HTTP_200_OK).
Proof.
  intros Hu. unfold DeviceInfoView.get. rewrite Hu. cbn [negb].
  reflexivity.
Qed.

Example device_info_admin_sample :
  DeviceInfoView.get Sample.env (Sample.req ∅ ∅ Sample.admin)
  = Returned (Response
      {[ "version" := VStr "0.15.0";
         "urls" := VList [VStr "http://192.168.1.5:8080/"];
         "database_path" := VStr "/home/kolibri/db.sqlite3";
         "device_id" := VStr "a1b2";
         "os" := VStr "Linux";
         "content_storage_free_space" := VInt 4096;
         "server_time" := VDateTime 1000;
         "server_timezone" := VStr "UTC";
         "installer" := VStr "deb";
         "python_version" := VStr "3.6.9" ]} 200).
Proof. reflexivity. Qed.

(** C9: a user who is not a superuser gets exactly the keys
    [version] and [content_storage_free_space], and any other server
    with the same version and the same free space in its content
    directory gives any such user the same response. *)
Theorem device_info_non_superuser (env : environment) (req : request) :
  is_superuser (request_user req) = false ->
  exists info,
    DeviceInfoView.get env req = Returned (Response info HTTP_200_OK)
    /\ dom info = ({[ "version"; "content_storage_free_space" ]} : gset string)
    /\ forall env' req',
         is_superuser (request_user req') = false ->
         kolibri_version env' = kolibri_version env ->
         get_free_space env' (Some (CONTENT_DIR env'))
         = get_free_space env (Some (CONTENT_DIR env)) ->
         DeviceInfoView.get env' req' = DeviceInfoView.get env req.
Proof.
  intros Hu. eexists. split; [by apply device_info_learner |]. split.
  - rewrite dom_insert_L, dom_singleton_L. set_solver.
  - intros env' req' Hu' Hv Hf.
    rewrite !device_info_learner by done. by rewrite Hv, Hf.
Qed.

Lemma device_info_non_superuser_witness :
  DeviceInfoView.get Sample.other_env
    (Sample.req {[ "x" := VNone ]} ∅ Sample.learner)
  = DeviceInfoView.get Sample.env (Sample.req ∅ ∅ Sample.learner).
Proof.
  destruct (device_info_non_superuser Sample.env (Sample.req ∅ ∅ Sample.learner)
              eq_refl) as (info & _ & _ & Hsame).
  apply Hsame; reflexivity.
Defined.

(** *** The reported URLs *)

Lemma is_local_iff (url : string) :
  DeviceInfoView.is_local url = true <->
  (exists pre post, url = (pre ++ "127.0.0.1" ++ post)%string)
  \/ (exists pre post, url = (pre ++ "localhost" ++ post)%string).
Proof.
  unfold DeviceInfoView.is_local. by rewrite orb_true_iff, !contains_iff.
Qed.

Lemma served_urls_nonempty (env : environment) (req : request) :
  DeviceInfoView.served_urls env req <> [].
Proof.
  unfold DeviceInfoView.served_urls. by destruct (snd (get_urls env)).
Qed.

Lemma reported_urls_cases (env : environment) (req : request) :
  let served := DeviceInfoView.served_urls env req in
  let kept := List.filter (fun url => negb (DeviceInfoView.is_local url)) served in
  (kept = [] /\ DeviceInfoView.reported_urls env req = served)
  \/ (kept <> [] /\ DeviceInfoView.reported_urls env req = kept).
Proof.
  intros served kept. unfold DeviceInfoView.reported_urls.
  fold served. fold kept. destruct kept; [by left | by right].
Qed.

Lemma filter_nil_iff {A : Type} (f : A -> bool) (l : list A) :
  List.filter f l = [] <-> forall x, x ∈ l -> f x = false.
Proof.
  induction l as [|a l IH]; cbn.
  - split; [intros _ x Hx; by apply not_elem_of_nil in Hx | done].
  - destruct (f a) eqn:Hfa.
    + split; [discriminate |]. intros Hall.
      specialize (Hall a (list_elem_of_here a l)). congruence.
    + rewrite IH. split.
      * intros Hall x [->|Hx]%elem_of_cons; auto.
      * intros Hall x Hx. apply Hall. by apply list_elem_of_further.
Qed.

(** C10: the ["urls"] entry shown to a superuser is a non-empty list.
    It is the request's own absolute URL when [get_urls] has none; a
    URL with [127.0.0.1] or [localhost] in it is dropped only when
    some URL without either is left, and then all of them are. *)
Theorem device_info_urls_nonempty (env : environment) (req : request) :
  is_superuser (request_user req) = true ->
  exists info urls,
    DeviceInfoView.get env req = Returned (Response info HTTP_200_OK)
    /\ info !! "urls" = Some (VList (VStr <$> urls))
    /\ urls <> []
    /\ (snd (get_urls env) = [] ->
        urls = [build_absolute_uri req (URL_PATH_PREFIX env)])
    /\ (snd (get_urls env) <> [] ->
        DeviceInfoView.served_urls env req = snd (get_urls env))
    /\ ((exists url, url ∈ DeviceInfoView.served_urls env req
                     /\ DeviceInfoView.is_local url = false) ->
        urls = List.filter (fun url => negb (DeviceInfoView.is_local url))
                           (DeviceInfoView.served_urls env req))
    /\ ((forall url, url ∈ DeviceInfoView.served_urls env req ->
                     DeviceInfoView.is_local url = true) ->
        urls = DeviceInfoView.served_urls env req)
    /\ (forall url, url ∈ DeviceInfoView.served_urls env req -> url ∉ urls ->
        DeviceInfoView.is_local url = true
        /\ exists kept, kept ∈ urls /\ DeviceInfoView.is_local kept = false).
Proof.
  intros Hu. unfold DeviceInfoView.get. rewrite Hu. cbn [negb].
  eexists _, (DeviceInfoView.reported_urls env req).
  split; [reflexivity |]. split; [reflexivity |].
  pose proof (served_urls_nonempty env req) as Hne.
  destruct (reported_urls_cases env req) as [[Hk ->] | [Hk ->]].
  - (* every served URL is local: the list is reported as it is *)
    rewrite filter_nil_iff in Hk.
    split; [done |]. split.
    { intros Hnone. unfold DeviceInfoView.served_urls. by rewrite Hnone. }
    split.
    { unfold DeviceInfoView.served_urls. by destruct (snd (get_urls env)). }
    split.
    { intros (url & Hin & Hloc). apply Hk in Hin. rewrite Hloc in Hin. discriminate. }
    split; [done |]. by intros url Hin Hout.
  - (* some served URL is not local: exactly those are reported *)
    split; [done |]. split.
    { intros Hnone. revert Hk. unfold DeviceInfoView.served_urls. rewrite Hnone.
      cbn. by destruct (negb _). }
    split.
    { unfold DeviceInfoView.served_urls. by destruct (snd (get_urls env)). }
    split; [done |]. split.
    { intros Hall. destruct Hk. apply filter_nil_iff.
      intros url Hin. by rewrite (Hall url Hin). }
    intros url Hin Hout.
    assert (Hloc : DeviceInfoView.is_local url = true).
    { destruct (DeviceInfoView.is_local url) eqn:Hl; [done |]. destruct Hout.
      apply list_elem_of_In, filter_In. rewrite <- list_elem_of_In, Hl. done. }
    split; [done |].
    destruct (List.filter _ _) as [|kept rest] eqn:Hf; [done |].
    exists kept. split; [left |].
    assert (Hin' : In kept (List.filter
                     (fun url => negb (DeviceInfoView.is_local url))
                     (DeviceInfoView.served_urls env req))) by (rewrite Hf; by left).
    apply filter_In in Hin' as [_ Hnl]. by apply negb_true_iff.
Qed.

Lemma device_info_urls_nonempty_witness :
  exists info urls,
    DeviceInfoView.get Sample.env (Sample.req ∅ ∅ Sample.admin)
    = Returned (Response info HTTP_200_OK)
    /\ info !! "urls" = Some (VList (VStr <$> urls))
    /\ urls = ["http://192.168.1.5:8080/"].
Proof.
  destruct (device_info_urls_nonempty Sample.env (Sample.req ∅ ∅ Sample.admin)
              eq_refl)
    as (info & urls & Hget & Hurls & _ & _ & _ & Hkept & _).
  exists info, urls. split; [exact Hget |]. split; [exact Hurls |].
  rewrite Hkept; [reflexivity |].
  exists "http://192.168.1.5:8080/". split; [| reflexivity].
  right; left.
Defined.

Example device_info_urls_debug_server :
  DeviceInfoView.reported_urls Sample.other_env (Sample.req ∅ ∅ Sample.admin)
  = ["http://kolibri.lan/kolibri/"].
Proof. reflexivity. Qed.

Example device_info_urls_all_local :
  DeviceInfoView.reported_urls
    {| kolibri_version := ""; get_urls := (0, ["http://localhost:8080/"]);
       CONTENT_DIR := ""; URL_PATH_PREFIX := "/";
       DATABASES_default_ENGINE := ""; DATABASES_default_NAME := "";
       current_instance := {| id := ""; platform := "" |};
       get_free_space := fun _ => 0; path_resolves := fun _ => true;
       local_now := 0; TIME_ZONE := "";
       installation_type := ""; version_info := (3, 6, 9) |}
    (Sample.req ∅ ∅ Sample.admin)
  = ["http://localhost:8080/"].
Proof. reflexivity. Qed.

(** * Part III: further properties of the views *)

(** ** The status column *)

Example statuses_sample :
  SyncAnnotation.statuses 5000000100 SampleSync.tables SampleSync.rows
  = [("vera", None); ("gosho", Some "QUEUED");
     ("ana", Some "NOT_RECENTLY_SYNCED"); ("boris", Some "SYNCING");
     ("dana", None)].
Proof. reflexivity. Qed.

(** ** map_status, read backwards and over time *)

(** X1: each bucket tells what the record was: [SYNCING] is given to
    active records only, [QUEUED] to queued records that are not
    active, and the two remaining buckets to records that are neither
    and have a [last_synced], less than fifteen minutes old or not. *)
Theorem map_status_bucket_iff (now : Z) (status : sync_status) :
  (map_status now status = Some SYNCING <-> active status = true)
  /\ (map_status now status = Some QUEUED <->
      active status = false /\ queued status = true)
  /\ (map_status now status = Some RECENTLY_SYNCED <->
      active status = false /\ queued status = false
      /\ exists t, last_synced status = Some t /\ now - t < timedelta_minutes 15)
  /\ (map_status now status = Some NOT_RECENTLY_SYNCED <->
      active status = false /\ queued status = false
      /\ exists t, last_synced status = Some t /\ timedelta_minutes 15 <= now - t).
Proof.
  destruct status as [a q l]; unfold map_status; cbn.
  destruct a.
  { repeat split; try done; try (intros H; discriminate H);
      intros [Hf _]; discriminate Hf. }
  destruct q.
  { repeat split; try done; try (intros H; discriminate H);
      intros (_ & Hf & _); discriminate Hf. }
  destruct l as [t|].
  - destruct (Z.ltb_spec (now - t) (timedelta_minutes 15));
      repeat split; try done; try (intros H'; discriminate H');
      first [ intros [_ Hf]; discriminate Hf
            | intros (_ & _ & t' & [= <-] & Ht); lia
            | exists t; split; [done | lia] ].
  - repeat split; try done; try (intros H'; discriminate H');
      first [ intros [_ Hf]; discriminate Hf
            | intros (_ & _ & t' & Ht & _); discriminate Ht ].
Qed.

(** X2: while a record stays as it is, the passing of time changes its
    status in one way only, from [RECENTLY_SYNCED] to
    [NOT_RECENTLY_SYNCED]. *)
Theorem map_status_over_time (now now' : Z) (status : sync_status) :
  now <= now' ->
  map_status now' status = map_status now status
  \/ (map_status now status = Some RECENTLY_SYNCED
      /\ map_status now' status = Some NOT_RECENTLY_SYNCED).
Proof.
  intros Hle. destruct status as [a q l]; unfold map_status; cbn.
  destruct a; [by left |]. destruct q; [by left |].
  destruct l as [t|]; [| by left].
  destruct (Z.ltb_spec (now - t) (timedelta_minutes 15)),
           (Z.ltb_spec (now' - t) (timedelta_minutes 15));
    try (by left); [by right | lia].
Qed.

Lemma map_status_over_time_witness :
  map_status 900000000 (SyncStatus false false (Some 0))
  = map_status 899999999 (SyncStatus false false (Some 0))
  \/ (map_status 899999999 (SyncStatus false false (Some 0)) = Some RECENTLY_SYNCED
      /\ map_status 900000000 (SyncStatus false false (Some 0))
         = Some NOT_RECENTLY_SYNCED).
Proof.
  apply (map_status_over_time 899999999 900000000 (SyncStatus false false (Some 0))).
  lia.
Defined.

(** ** The deletion loop of DeviceInfoView.get *)

Lemma delitems_lookup (keys : list string) (d d' : dict) :
  delitems d keys = Returned d' ->
  forall k, d' !! k = if decide (k ∈ keys) then None else d !! k.
Proof.
  revert d; induction keys as [|key keys IH]; intros d; cbn.
  - intros [= <-] k. by rewrite decide_False by apply not_elem_of_nil.
  - unfold delitem. destruct (d !! key) eqn:Hkey; [| discriminate].
    cbn. intros Hrest k. rewrite (IH _ Hrest k).
    destruct (decide (k = key)) as [->|Hne].
    + rewrite lookup_delete_eq, (decide_True (P := key ∈ key :: keys)) by left.
      by destruct (decide _).
    + rewrite lookup_delete_ne by done.
      destruct (decide (k ∈ keys)) as [Hin|Hout].
      * by rewrite decide_True by (by right).
      * rewrite decide_False; [done |]. by intros [?|?]%elem_of_cons.
Qed.

(** X3: [for key in keys: del d[key]] goes through exactly when the
    keys are distinct and all in the dictionary; it then leaves the
    other entries as they were and none of the keys. *)
Theorem delitems_returned_iff (keys : list string) (d : dict) :
  ((exists d', delitems d keys = Returned d') <->
   NoDup keys /\ forall k, k ∈ keys -> is_Some (d !! k))
  /\ (forall d', delitems d keys = Returned d' ->
      forall k, d' !! k = if decide (k ∈ keys) then None else d !! k).
Proof.
  split; [| apply delitems_lookup].
  revert d; induction keys as [|key keys IH]; intros d; cbn.
  - split; [intros _; split; [constructor | by intros k ?%not_elem_of_nil] |].
    intros _. by exists d.
  - unfold delitem. destruct (d !! key) as [v|] eqn:Hkey; cbn.
    + rewrite IH. split.
      * intros [Hnd Hall]. split.
        -- constructor; [| done]. intros Hin.
           destruct (Hall key Hin) as [w Hw]. by rewrite lookup_delete_eq in Hw.
        -- intros k [->|Hin]%elem_of_cons; [by rewrite Hkey |].
           destruct (Hall k Hin) as [w Hw].
           destruct (decide (k = key)) as [->|Hne];
             [by rewrite lookup_delete_eq in Hw |].
           rewrite lookup_delete_ne in Hw by done. by rewrite Hw.
      * intros [Hnd Hall]. apply NoDup_cons in Hnd as [Hout Hnd].
        split; [done |]. intros k Hin.
        rewrite lookup_delete_ne by (intros ->; done).
        apply Hall. by right.
    + split; [intros (d' & Hd'); discriminate |].
      intros [_ Hall]. destruct (Hall key) as [w Hw]; [left |]. congruence.
Qed.

(** ** DeviceInfoView.get for every user *)

(** X4: [DeviceInfoView.get] raises nothing: every key the loop
    deletes was set before.  The answer has status 200 and always
    holds the version and the free space of the content directory; a
    superuser's answer has exactly the ten keys, among them the id and
    the platform of the current instance. *)
Theorem device_info_get_returns (env : environment) (req : request) :
  exists info,
    DeviceInfoView.get env req = Returned (Response info HTTP_200_OK)
    /\ info !! "version" = Some (VStr (kolibri_version env))
    /\ info !! "content_storage_free_space"
       = Some (VInt (get_free_space env (Some (CONTENT_DIR env))))
    /\ (is_superuser (request_user req) = true ->
        dom info
        = ({[ "version"; "urls"; "database_path"; "device_id"; "os";
              "content_storage_free_space"; "server_time"; "server_timezone";
              "installer"; "python_version" ]} : gset string)
        /\ info !! "device_id" = Some (VStr (id (current_instance env)))
        /\ info !! "os" = Some (VStr (platform (current_instance env)))
        /\ info !! "database_path" = Some (VStr (DeviceInfoView.database_path env))
        /\ info !! "server_time" = Some (VDateTime (local_now env))
        /\ info !! "server_timezone" = Some (VStr (TIME_ZONE env))
        /\ info !! "installer" = Some (VStr (installation_type env))
        /\ info !! "python_version"
           = Some (VStr (DeviceInfoView.python_version env))).
Proof.
  unfold DeviceInfoView.get.
  destruct (is_superuser (request_user req)); cbn [negb].
  - eexists. split; [reflexivity |]. do 2 (split; [reflexivity |]).
    intros _. split; [| repeat split; reflexivity].
    rewrite !dom_insert_L, dom_empty_L. set_solver.
  - eexists. split; [reflexivity |]. do 2 (split; [reflexivity |]). discriminate.
Qed.

(** X10: the free space [DeviceInfoView] reports under
    [content_storage_free_space], to any user, is the one
    [FreeSpaceView] reports for [path=Content]. *)
Theorem content_free_space_agrees (env : environment) (req req' : request) :
  query_params req' !! "path" = Some "Content" ->
  exists info free,
    DeviceInfoView.get env req = Returned (Response info HTTP_200_OK)
    /\ info !! "content_storage_free_space" = Some (VInt free)
    /\ FreeSpaceView.list env req'
       = Returned (Response {[ "freespace" := VInt free ]} HTTP_200_OK).
Proof.
  intros Hpath. unfold DeviceInfoView.get, FreeSpaceView.list. rewrite Hpath.
  destruct (is_superuser (request_user req)); cbn [negb];
    eexists _, _; (split; [reflexivity |]); split; reflexivity.
Qed.

Lemma content_free_space_agrees_witness :
  exists info free,
    DeviceInfoView.get Sample.env (Sample.req ∅ ∅ Sample.learner)
    = Returned (Response info HTTP_200_OK)
    /\ info !! "content_storage_free_space" = Some (VInt free)
    /\ FreeSpaceView.list Sample.env
         (Sample.req ∅ {[ "path" := "Content" ]} Sample.admin)
       = Returned (Response {[ "freespace" := VInt free ]} HTTP_200_OK).
Proof.
  apply (content_free_space_agrees Sample.env
           (Sample.req ∅ ∅ Sample.learner)
           (Sample.req ∅ {[ "path" := "Content" ]} Sample.admin)).
  reflexivity.
Defined.

(** ** The database path of DeviceInfoView.get *)

Lemma length_append (a b : string) :
  String.length (a ++ b) = (String.length a + String.length b)%nat.
Proof.
  induction a as [|c a IH]; [done |].
  rewrite append_cons. cbn. by rewrite IH.
Qed.

Lemma substring_whole (s : string) : String.substring 0 (String.length s) s = s.
Proof. induction s as [|c s IH]; cbn; [done | by rewrite IH]. Qed.

Lemma substring_append_suffix (pre suf : string) :
  String.substring (String.length pre) (String.length suf) (pre ++ suf) = suf.
Proof.
  induction pre as [|c pre IH]; [apply substring_whole |].
  rewrite append_cons. cbn. apply IH.
Qed.

Lemma substring_split (s : string) (m : nat) :
  (m <= String.length s)%nat ->
  s = (String.substring 0 m s
       ++ String.substring m (String.length s - m) s)%string.
Proof.
  revert m; induction s as [|c s IH]; intros m Hm; cbn in Hm.
  - replace m with 0%nat by lia. reflexivity.
  - destruct m as [|m].
    + cbn. by rewrite substring_whole.
    + cbn. rewrite append_cons. f_equal. apply IH. lia.
Qed.

(** [endswith] is Python's [s.endswith(suffix)]. *)
Lemma endswith_iff (s suffix : string) :
  endswith s suffix = true <-> exists pre, s = (pre ++ suffix)%string.
Proof.
  unfold endswith. rewrite andb_true_iff, Nat.leb_le, String.eqb_eq. split.
  - intros [Hle Hsub].
    exists (String.substring 0 (String.length s - String.length suffix) s).
    pose proof (substring_split s (String.length s - String.length suffix)) as Hsplit.
    replace (String.length s - (String.length s - String.length suffix))%nat
      with (String.length suffix) in Hsplit by lia.
    rewrite Hsub in Hsplit. apply Hsplit. lia.
  - intros (pre & ->). rewrite length_append. split; [lia |].
    replace (String.length pre + String.length suffix - String.length suffix)%nat
      with (String.length pre) by lia.
    apply substring_append_suffix.
Qed.

Lemma list_ascii_of_string_append (a b : string) :
  list_ascii_of_string (a ++ b)
  = (list_ascii_of_string a ++ list_ascii_of_string b)%list.
Proof.
  induction a as [|c a IH]; [done |].
  rewrite append_cons. cbn. by rewrite IH.
Qed.

(** The last character of a string with a non-empty suffix is the
    suffix's. *)
Lemma last_of_append (pre suf : string) (c : ascii) :
  last (list_ascii_of_string suf) = Some c ->
  last (list_ascii_of_string (pre ++ suf)) = Some c.
Proof.
  intros Hlast. rewrite list_ascii_of_string_append.
  destruct (list_ascii_of_string suf) as [|x l] eqn:Hsuf; [discriminate |].
  rewrite last_app. by rewrite Hlast.
Qed.

Lemma sqlite3_not_postgresql (pre pre' : string) :
  (pre ++ "sqlite3")%string <> (pre' ++ "postgresql")%string.
Proof.
  intros Heq.
  pose proof (last_of_append pre "sqlite3" "3"%char eq_refl) as H3.
  pose proof (last_of_append pre' "postgresql" "l"%char eq_refl) as Hl.
  rewrite Heq in H3. rewrite Hl in H3. discriminate H3.
Qed.

(** X5: the database path shown is the database's file name exactly
    for an engine whose name ends in [sqlite3], the word [postgresql]
    for one whose name ends in [postgresql], and [unknown] for every
    other engine; the two endings exclude each other, so the name of a
    PostgreSQL database is never shown. *)
Theorem database_path_cases (env : environment) :
  (forall pre, DATABASES_default_ENGINE env = (pre ++ "sqlite3")%string ->
     DeviceInfoView.database_path env = DATABASES_default_NAME env)
  /\ (forall pre, DATABASES_default_ENGINE env = (pre ++ "postgresql")%string ->
     DeviceInfoView.database_path env = "postgresql")
  /\ ((forall pre, DATABASES_default_ENGINE env <> (pre ++ "sqlite3")%string) ->
      (forall pre, DATABASES_default_ENGINE env <> (pre ++ "postgresql")%string) ->
      DeviceInfoView.database_path env = "unknown").
Proof.
  unfold DeviceInfoView.database_path.
  destruct (endswith (DATABASES_default_ENGINE env) "sqlite3") eqn:Hs;
    destruct (endswith (DATABASES_default_ENGINE env) "postgresql") eqn:Hp.
  - apply endswith_iff in Hs as (pre & Hs). apply endswith_iff in Hp as (pre' & Hp).
    rewrite Hs in Hp. by apply sqlite3_not_postgresql in Hp.
  - apply endswith_iff in Hs as (pre & Hs).
    split; [done |]. split.
    + intros pre' Hp'. rewrite Hs in Hp'. by apply sqlite3_not_postgresql in Hp'.
    + intros Hno _. by destruct (Hno pre).
  - apply endswith_iff in Hp as (pre' & Hp).
    split; [| split; [done |]].
    + intros pre Hs'. rewrite Hs' in Hp. by apply sqlite3_not_postgresql in Hp.
    + intros _ Hno. by destruct (Hno pre').
  - split; [| split; [| done]].
    + intros pre Hs'.
      assert (endswith (DATABASES_default_ENGINE env) "sqlite3" = true)
        by (apply endswith_iff; eauto).
      congruence.
    + intros pre Hp'.
      assert (endswith (DATABASES_default_ENGINE env) "postgresql" = true)
        by (apply endswith_iff; eauto).
      congruence.
Qed.

(** ** DeviceNameView: failures and sequences of requests *)

(** X6: after a [PATCH] of the name that went through, a [GET]
    answers with the new name from the cache, without a query and
    without a change; and a later [PATCH] that carries a fit name
    decides: it leaves the state that it would have left without the
    earlier one, so that repeating a [PATCH] changes nothing more. *)
Theorem name_patch_then_get `{DeviceSettingsModel} (req req' req2 : request)
    (db : database) (s : DeviceSettings) (new_name later_name : value)
    (text later_text : string) :
  device_settings db = Some s ->
  cache_coherent db ->
  clean_other_fields (other_fields s) = inr (other_fields s) ->
  data req !! "name" = Some new_name ->
  CharField_to_python new_name = Some text ->
  text <> "" ->
  (String.length text <= name_max_length)%nat ->
  data req2 !! "name" = Some later_name ->
  CharField_to_python later_name = Some later_text ->
  later_text <> "" ->
  (String.length later_text <= name_max_length)%nat ->
  exists r db' qs,
    DeviceNameView.patch req db = (Returned r, db', qs)
    /\ DeviceNameView.get req' db'
       = (Returned (Response {[ "name" := VStr text ]} HTTP_200_OK), db', [])
    /\ cache_coherent db'
    /\ (DeviceNameView.patch req2 db').1.2 = (DeviceNameView.patch req2 db).1.2
    /\ (DeviceNameView.patch req db').1.2 = db'.
Proof.
  intros Hs Hco Hother Hn Hp Hne Hlen Hn2 Hp2 Hne2 Hlen2.
  destruct (run_get_coherent db s Hs Hco) as (db1 & qs1 & Hget & Hsame & _ & _).
  pose (s' := {| name := VStr text; other_fields := other_fields s |}).
  pose (db' := set_device_settings_cache s' (set_device_settings s' db1)).
  assert (Hrun : DeviceNameView.patch req db
                 = (Returned (Response {[ "name" := VStr text ]} HTTP_200_OK), db',
                    (qs1 ++ [SAVE_DeviceSettings s'])%list)).
  { rewrite (name_patch_run req db db1 s qs1 Hget), Hn.
    by rewrite (full_clean_fit (DeviceNameView.set_name new_name s) text
                  Hp Hne Hlen Hother). }
  assert (Hwarm : DeviceSettings_objects_get db' = (Returned s', db', []))
    by (by apply run_get_warm).
  exists (Response {[ "name" := VStr text ]} HTTP_200_OK), db',
         (qs1 ++ [SAVE_DeviceSettings s'])%list.
  split; [exact Hrun |]. split.
  { unfold DeviceNameView.get. erewrite run_bind_returned; [| exact Hwarm | reflexivity].
    reflexivity. }
  split; [by intros c [= <-] |]. split.
  - rewrite (name_patch_run req2 db' db' s' [] Hwarm), Hn2.
    rewrite (name_patch_run req2 db db1 s qs1 Hget), Hn2.
    rewrite (full_clean_fit (DeviceNameView.set_name later_name s') later_text
               Hp2 Hne2 Hlen2 Hother).
    rewrite (full_clean_fit (DeviceNameView.set_name later_name s) later_text
               Hp2 Hne2 Hlen2 Hother).
    reflexivity.
  - rewrite (name_patch_run req db' db' s' [] Hwarm), Hn.
    rewrite (full_clean_fit (DeviceNameView.set_name new_name s') text
               Hp Hne Hlen Hother).
    reflexivity.
Qed.

Lemma name_patch_then_get_witness :
  exists r db' qs,
    @DeviceNameView.patch Sample.settings_model
      (Sample.req {[ "name" := VStr "library" ]} ∅ Sample.admin) Sample.db
    = (Returned r, db', qs)
    /\ DeviceNameView.get (Sample.req ∅ ∅ Sample.learner) db'
       = (Returned (Response {[ "name" := VStr "library" ]} HTTP_200_OK), db', [])
    /\ cache_coherent db'
    /\ (@DeviceNameView.patch Sample.settings_model
          (Sample.req {[ "name" := VInt 5 ]} ∅ Sample.admin) db').1.2
       = (@DeviceNameView.patch Sample.settings_model
            (Sample.req {[ "name" := VInt 5 ]} ∅ Sample.admin) Sample.db).1.2
    /\ (@DeviceNameView.patch Sample.settings_model
          (Sample.req {[ "name" := VStr "library" ]} ∅ Sample.admin) db').1.2 = db'.
Proof.
  apply (@name_patch_then_get Sample.settings_model
           (Sample.req {[ "name" := VStr "library" ]} ∅ Sample.admin)
           (Sample.req ∅ ∅ Sample.learner)
           (Sample.req {[ "name" := VInt 5 ]} ∅ Sample.admin)
           Sample.db Sample.settings (VStr "library") (VInt 5) "library" "5").
  - reflexivity.
  - intros c Hc. discriminate Hc.
  - reflexivity.
  - reflexivity.
  - reflexivity.
  - discriminate.
  - cbn. unfold name_max_length. lia.
  - reflexivity.
  - reflexivity.
  - discriminate.
  - cbn. unfold name_max_length. lia.
Defined.

(** X7: when the [PATCH] of the name raises, nothing was saved: the
    row and every table are as they were, and the only change there
    can be is the cache entry a cold read filled.  It raises
    [DoesNotExist] when the manager has no settings to give,
    [KeyError] without a ["name"] in the request data, and the
    validation error of [full_clean()] for a name that is null, blank
    or too long, or for another column that is not clean. *)
Theorem name_patch_raises_unchanged `{DeviceSettingsModel} (req : request)
    (db db' : database) (e : exception) (qs : list query) :
  DeviceNameView.patch req db = (Raised e, db', qs) ->
  device_settings db' = device_settings db
  /\ dynamic_network_locations db' = dynamic_network_locations db
  /\ user_sync_statuses db' = user_sync_statuses db
  /\ other_tables db' = other_tables db
  /\ forallb (fun q => negb (is_save q)) qs = true
  /\ (db' = db
      \/ exists s, device_settings_cache db = None /\ device_settings db = Some s
                   /\ db' = set_device_settings_cache s db)
  /\ ((e = DoesNotExist /\ device_settings_cache db = None
       /\ device_settings db = None)
      \/ (e = KeyError "name" /\ data req !! "name" = None)
      \/ (exists new_name s errors,
            e = DjangoValidationError errors
            /\ data req !! "name" = Some new_name
            /\ full_clean (DeviceNameView.set_name new_name s) = Raised e
            /\ ((exists messages, clean_name new_name = inl messages)
                \/ exists errors', clean_other_fields (other_fields s) = inl errors'))).
Proof.
  intros Hrun.
  assert (Hcases :
    (exists s db1 qs1, DeviceSettings_objects_get db = (Returned s, db1, qs1)
       /\ (db1 = db \/ (device_settings_cache db = None /\ device_settings db = Some s
                         /\ db1 = set_device_settings_cache s db))
       /\ forallb (fun q => negb (is_save q)) qs1 = true)
    \/ (device_settings_cache db = None /\ device_settings db = None)).
  { unfold DeviceSettings_objects_get.
    destruct (device_settings_cache db) as [c|] eqn:Hc.
    - left. exists c, db, []. auto.
    - destruct (device_settings db) as [s|] eqn:Hs; [| by right].
      left. exists s, (set_device_settings_cache s db), [SELECT_DeviceSettings].
      split; [done |]. split; [right; done | done]. }
  destruct Hcases as [(s & db1 & qs1 & Hget & Hdb1 & Hqs1) | [Hc Hs]].
  - rewrite (name_patch_run req db db1 s qs1 Hget) in Hrun.
    assert (Hframe : device_settings db1 = device_settings db
                     /\ dynamic_network_locations db1 = dynamic_network_locations db
                     /\ user_sync_statuses db1 = user_sync_statuses db
                     /\ other_tables db1 = other_tables db).
    { destruct Hdb1 as [-> | (_ & _ & ->)]; done. }
    assert (Hstate : db1 = db
                     \/ exists s0, device_settings_cache db = None
                                   /\ device_settings db = Some s0
                                   /\ db1 = set_device_settings_cache s0 db).
    { destruct Hdb1 as [-> | ?]; [by left | right; eauto]. }
    destruct (data req !! "name") as [v|] eqn:Hn.
    + destruct (full_clean (DeviceNameView.set_name v s)) as [c|e0] eqn:Hclean;
        [discriminate |].
      injection Hrun as <- <- <-.
      destruct Hframe as (? & ? & ? & ?). do 6 (split; [done |]).
      right; right.
      unfold full_clean in Hclean. cbn [name other_fields DeviceNameView.set_name] in Hclean.
      destruct (clean_name v) as [messages|cleaned] eqn:Hname;
        destruct (clean_other_fields (other_fields s)) as [errors'|fields] eqn:Hfields;
        try discriminate; injection Hclean as <-;
        eexists v, s, _; (split; [reflexivity |]); (split; [done |]);
        (split; [unfold full_clean; cbn [name other_fields DeviceNameView.set_name];
                 by rewrite Hname, Hfields |]); eauto.
    + injection Hrun as <- <- <-.
      destruct Hframe as (? & ? & ? & ?). do 6 (split; [done |]).
      right; left. done.
  - rewrite (name_patch_unprovisioned req db Hc Hs) in Hrun.
    injection Hrun as <- <- <-.
    do 5 (split; [done |]). split; [by left |]. by left.
Qed.

Lemma name_patch_raises_unchanged_witness :
  device_settings Sample.warm_db = device_settings Sample.warm_db
  /\ dynamic_network_locations Sample.warm_db = dynamic_network_locations Sample.warm_db
  /\ user_sync_statuses Sample.warm_db = user_sync_statuses Sample.warm_db
  /\ other_tables Sample.warm_db = other_tables Sample.warm_db
  /\ forallb (fun q => negb (is_save q)) [] = true
  /\ (Sample.warm_db = Sample.warm_db
      \/ exists s, device_settings_cache Sample.warm_db = None
                   /\ device_settings Sample.warm_db = Some s
                   /\ Sample.warm_db = set_device_settings_cache s Sample.warm_db)
  /\ ((DjangoValidationError {[ "name" := ["This field cannot be blank."] ]}
       = DoesNotExist
       /\ device_settings_cache Sample.warm_db = None
       /\ device_settings Sample.warm_db = None)
      \/ (DjangoValidationError {[ "name" := ["This field cannot be blank."] ]}
          = KeyError "name"
          /\ data (Sample.req {[ "name" := VStr "" ]} ∅ Sample.admin) !! "name" = None)
      \/ (exists new_name s errors,
            DjangoValidationError {[ "name" := ["This field cannot be blank."] ]}
            = DjangoValidationError errors
            /\ data (Sample.req {[ "name" := VStr "" ]} ∅ Sample.admin) !! "name"
               = Some new_name
            /\ @full_clean Sample.settings_model (DeviceNameView.set_name new_name s)
               = Raised (DjangoValidationError
                           {[ "name" := ["This field cannot be blank."] ]})
            /\ ((exists messages,
                   @clean_name Sample.settings_model new_name = inl messages)
                \/ exists errors',
                     @clean_other_fields Sample.settings_model (other_fields s)
                     = inl errors'))).
Proof.
  apply (@name_patch_raises_unchanged Sample.settings_model
           (Sample.req {[ "name" := VStr "" ]} ∅ Sample.admin)
           Sample.warm_db Sample.warm_db
           (DjangoValidationError {[ "name" := ["This field cannot be blank."] ]}) []).
  reflexivity.
Defined.

(** ** DeviceSettingsView: a GET after a PATCH *)

(** X9: a [GET] of the settings after a [PATCH] whose data were
    accepted and saved answers with the very data the [PATCH]
    answered with; it is served from the cache that [save()] filled,
    without a query and without a change. *)
Theorem settings_patch_then_get `{DeviceSettingsSerializer} `{DeviceSettingsModel}
    (req req' : request) (db : database) (s cleaned : DeviceSettings)
    (validated_data : dict) :
  device_settings db = Some s ->
  cache_coherent db ->
  run_validation s (data req) = inr validated_data ->
  full_clean (update s validated_data) = Returned cleaned ->
  exists resp db' qs,
    DeviceSettingsView.patch req db = (Returned resp, db', qs)
    /\ resp = Response (to_representation cleaned) HTTP_200_OK
    /\ device_settings db' = Some cleaned
    /\ DeviceSettingsView.get req' db' = (Returned resp, db', []).
Proof.
  intros Hs Hco Hv Hclean.
  destruct (run_get_coherent db s Hs Hco) as (db1 & qs1 & Hget & _ & _ & _).
  rewrite (settings_patch_run req db db1 s qs1 Hget).
  unfold DeviceSettingsView.is_valid. rewrite Hv, Hclean.
  eexists _, _, _. split; [reflexivity |]. do 2 (split; [reflexivity |]).
  unfold DeviceSettingsView.get.
  erewrite run_bind_returned; [| by apply run_get_warm | reflexivity].
  reflexivity.
Qed.

Lemma settings_patch_then_get_witness :
  exists resp db' qs,
    @DeviceSettingsView.patch Sample.settings_serializer Sample.settings_model
      (Sample.req {[ "language_id" := VStr "bg" ]} ∅ Sample.admin) Sample.db
    = (Returned resp, db', qs)
    /\ resp = Response
                (@to_representation Sample.settings_serializer
                   {| name := VStr "lab";
                      other_fields := {[ "language_id" := VStr "bg";
                                         "subset_of_users_device" := VBool true ]} |})
                HTTP_200_OK
    /\ device_settings db'
       = Some {| name := VStr "lab";
                 other_fields := {[ "language_id" := VStr "bg";
                                    "subset_of_users_device" := VBool true ]} |}
    /\ @DeviceSettingsView.get Sample.settings_serializer
         (Sample.req ∅ ∅ Sample.learner) db'
       = (Returned resp, db', []).
Proof.
  apply (@settings_patch_then_get Sample.settings_serializer Sample.settings_model
           (Sample.req {[ "language_id" := VStr "bg" ]} ∅ Sample.admin)
           (Sample.req ∅ ∅ Sample.learner)
           Sample.db Sample.settings
           {| name := VStr "lab";
              other_fields := {[ "language_id" := VStr "bg";
                                 "subset_of_users_device" := VBool true ]} |}
           {[ "language_id" := VStr "bg" ]}).
  - reflexivity.
  - intros c Hc. discriminate Hc.
  - reflexivity.
  - reflexivity.
Defined.

(** ** The cache of the settings manager *)

Lemma objects_get_coherent (db db1 : database) (r : outcome DeviceSettings)
    (qs1 : list query) :
  DeviceSettings_objects_get db = (r, db1, qs1) ->
  cache_coherent db ->
  cache_coherent db1.
Proof.
  unfold DeviceSettings_objects_get.
  destruct (device_settings_cache db) as [c|] eqn:Hc.
  - by intros [= <- <- <-].
  - destruct (device_settings db) as [s|] eqn:Hs; intros [= <- <- <-] Hco; [| done].
    by intros c [= <-].
Qed.

Lemma saved_state_coherent (cleaned : DeviceSettings) (db : database) :
  cache_coherent (set_device_settings_cache cleaned (set_device_settings cleaned db)).
Proof. by intros c [= <-]. Qed.

(** X15: the views keep the cache of the settings manager coherent:
    when the cache, if it holds settings, holds the stored row before
    a [GET] or a [PATCH] of the settings or of the name, it does so
    after it, whatever the request and however the handler ends. *)
Theorem views_keep_cache_coherent `{DeviceSettingsSerializer} `{DeviceSettingsModel}
    (req : request) (db : database) :
  cache_coherent db ->
  cache_coherent (DeviceSettingsView.get req db).1.2
  /\ cache_coherent (DeviceSettingsView.patch req db).1.2
  /\ cache_coherent (DeviceNameView.get req db).1.2
  /\ cache_coherent (DeviceNameView.patch req db).1.2.
Proof.
  intros Hco.
  destruct (DeviceSettings_objects_get db) as [[[s|e] db1] qs1] eqn:Hget.
  - pose proof (objects_get_coherent db db1 _ qs1 Hget Hco) as Hco1.
    rewrite (settings_patch_run req db db1 s qs1 Hget).
    rewrite (name_patch_run req db db1 s qs1 Hget).
    unfold DeviceSettingsView.get, DeviceNameView.get.
    rewrite !(run_bind_returned _ _ db db1 db1 s _ qs1 [] Hget eq_refl).
    split; [done |]. split; [| split; [done |]].
    + destruct (DeviceSettingsView.is_valid s (data req)) as [[|e es] v]; [| done].
      destruct (full_clean (update s v)); [apply saved_state_coherent | done].
    + destruct (data req !! "name") as [v|]; [| done].
      destruct (full_clean (DeviceNameView.set_name v s));
        [apply saved_state_coherent | done].
  - pose proof (objects_get_coherent db db1 _ qs1 Hget Hco) as Hco1.
    unfold DeviceSettingsView.get, DeviceSettingsView.patch,
      DeviceNameView.get, DeviceNameView.patch.
    by rewrite !(run_bind_raised _ _ db db1 e qs1 Hget).
Qed.

Lemma views_keep_cache_coherent_witness :
  cache_coherent
    (@DeviceSettingsView.get Sample.settings_serializer
       (Sample.req {[ "name" := VStr "library" ]} ∅ Sample.admin) Sample.db).1.2
  /\ cache_coherent
       (@DeviceSettingsView.patch Sample.settings_serializer Sample.settings_model
          (Sample.req {[ "name" := VStr "library" ]} ∅ Sample.admin) Sample.db).1.2
  /\ cache_coherent
       (DeviceNameView.get
          (Sample.req {[ "name" := VStr "library" ]} ∅ Sample.admin) Sample.db).1.2
  /\ cache_coherent
       (@DeviceNameView.patch Sample.settings_model
          (Sample.req {[ "name" := VStr "library" ]} ∅ Sample.admin) Sample.db).1.2.
Proof.
  apply (@views_keep_cache_coherent Sample.settings_serializer Sample.settings_model
           (Sample.req {[ "name" := VStr "library" ]} ∅ Sample.admin) Sample.db).
  intros c Hc. discriminate Hc.
Defined.

(** ** annotate_queryset and the status of a row *)

Lemma annotate_queryset_map (tb : SyncAnnotation.sync_tables)
    (queryset : list SyncAnnotation.UserSyncStatus) :
  SyncAnnotation.annotate_queryset tb queryset
  = List.map (fun r =>
      SyncAnnotation.MkAnnotated r
        (SyncAnnotation.Max (SyncAnnotation.joined_timestamps tb r))
        (SyncAnnotation.Exists (SyncAnnotation.active_transfer_sessions tb r)))
      (SyncAnnotation.grouped_order tb queryset).
Proof. unfold SyncAnnotation.annotate_queryset. by rewrite List.map_map. Qed.

Lemma annotated_last_synced_iff (tb : SyncAnnotation.sync_tables)
    (r : SyncAnnotation.UserSyncStatus) (t : Z) :
  SyncAnnotation.Max (SyncAnnotation.joined_timestamps tb r) = Some t <->
  exists key session,
    SyncAnnotation.uss_sync_session r = Some key
    /\ SyncAnnotation.sync_sessions tb !! key = Some session
    /\ SyncAnnotation.last_activity_timestamp session = t.
Proof.
  unfold SyncAnnotation.joined_timestamps.
  destruct (SyncAnnotation.uss_sync_session r) as [key|].
  - destruct (SyncAnnotation.sync_sessions tb !! key) as [session|] eqn:Hk; cbn.
    + split; [intros [= <-]; eauto |].
      intros (key' & session' & [= <-] & Hk' & <-). congruence.
    + split; [discriminate |].
      intros (key' & session' & [= <-] & Hk' & _). congruence.
  - cbn. split; [discriminate | intros (key & session & Hk & _); discriminate Hk].
Qed.

Lemma annotated_active_iff (tb : SyncAnnotation.sync_tables)
    (r : SyncAnnotation.UserSyncStatus) :
  SyncAnnotation.Exists (SyncAnnotation.active_transfer_sessions tb r) = true <->
  exists key ts,
    SyncAnnotation.uss_sync_session r = Some key
    /\ ts ∈ SyncAnnotation.transfer_sessions tb
    /\ SyncAnnotation.transfer_sync_session ts = key
    /\ SyncAnnotation.transfer_active ts = true.
Proof.
  unfold SyncAnnotation.active_transfer_sessions.
  destruct (SyncAnnotation.uss_sync_session r) as [key|]; cbn.
  - split.
    + destruct (List.filter _ _) as [|ts rest] eqn:Hf; [discriminate |].
      intros _.
      assert (Hin : In ts (ts :: rest)) by (by left).
      rewrite <- Hf in Hin. apply filter_In in Hin as [Hin Hts].
      apply andb_true_iff in Hts as [Hkey Hact]. apply String.eqb_eq in Hkey.
      exists key, ts. by rewrite <- list_elem_of_In in Hin.
    + intros (key' & ts & [= <-] & Hin & Hkey & Hact).
      assert (Hin' : In ts (List.filter
                (fun t => String.eqb (SyncAnnotation.transfer_sync_session t) key
                          && SyncAnnotation.transfer_active t)
                (SyncAnnotation.transfer_sessions tb))).
      { apply filter_In. rewrite <- list_elem_of_In. split; [done |].
        rewrite Hact, andb_true_r. by apply String.eqb_eq. }
      by destruct (List.filter _ _).
  - split; [discriminate | intros (key & ts & Hk & _); discriminate Hk].
Qed.


(** X12: the status of an annotated row is [SYNCING] exactly when a
    transfer session of the row's sync session is active, whether the
    row is queued or not and whatever the time. *)
Theorem annotated_status_syncing_iff (now : Z) (tb : SyncAnnotation.sync_tables)
    (queryset : list SyncAnnotation.UserSyncStatus) (a : SyncAnnotation.annotated) :
  a ∈ SyncAnnotation.annotate_queryset tb queryset ->
  SyncAnnotation.status now a = Some SYNCING <->
  exists key ts,
    SyncAnnotation.uss_sync_session (SyncAnnotation.row a) = Some key
    /\ ts ∈ SyncAnnotation.transfer_sessions tb
    /\ SyncAnnotation.transfer_sync_session ts = key
    /\ SyncAnnotation.transfer_active ts = true.
Proof.
  rewrite annotate_queryset_map.
  intros (r & <- & _)%list_elem_of_In%in_map_iff.
  rewrite <- annotated_active_iff.
  unfold SyncAnnotation.status, SyncAnnotation.values, map_status. cbn.
  destruct (SyncAnnotation.Exists _); [done |].
  split; [| discriminate].
  destruct (SyncAnnotation.uss_queued r); [discriminate |].
  destruct (SyncAnnotation.Max _); [| discriminate].
  by destruct (_ <? _).
Qed.

Lemma annotated_status_syncing_iff_witness :
  SyncAnnotation.status 0
    (SyncAnnotation.MkAnnotated
       (SyncAnnotation.MkUserSyncStatus "boris" true (Some "s2"))
       (Some 5000000000) true) = Some SYNCING <->
  exists key ts,
    Some "s2" = Some key
    /\ ts ∈ SyncAnnotation.transfer_sessions SampleSync.tables
    /\ SyncAnnotation.transfer_sync_session ts = key
    /\ SyncAnnotation.transfer_active ts = true.
Proof.
  apply (annotated_status_syncing_iff 0 SampleSync.tables SampleSync.rows
           (SyncAnnotation.MkAnnotated
              (SyncAnnotation.MkUserSyncStatus "boris" true (Some "s2"))
              (Some 5000000000) true)).
  do 3 right. left.
Defined.

(** X13: a row that names no sync session, or one that is gone, has
    the status [QUEUED] when it is queued and no status otherwise, at
    any time. *)
Theorem annotated_status_without_session (now : Z) (tb : SyncAnnotation.sync_tables)
    (queryset : list SyncAnnotation.UserSyncStatus) (a : SyncAnnotation.annotated) :
  a ∈ SyncAnnotation.annotate_queryset tb queryset ->
  (forall key, SyncAnnotation.uss_sync_session (SyncAnnotation.row a) = Some key ->
     SyncAnnotation.sync_sessions tb !! key = None
     /\ forall ts, ts ∈ SyncAnnotation.transfer_sessions tb ->
          SyncAnnotation.transfer_sync_session ts <> key) ->
  SyncAnnotation.status now a
  = if SyncAnnotation.uss_queued (SyncAnnotation.row a) then Some QUEUED else None.
Proof.
  rewrite annotate_queryset_map.
  intros (r & <- & _)%list_elem_of_In%in_map_iff Hgone. cbn in *.
  unfold SyncAnnotation.status, SyncAnnotation.values, map_status. cbn.
  destruct (SyncAnnotation.Exists _) eqn:Hact.
  { apply annotated_active_iff in Hact as (key & ts & Hk & Hin & Hkey & _).
    by destruct (Hgone key Hk) as [_ Hno]; destruct (Hno ts Hin). }
  destruct (SyncAnnotation.uss_queued r); [done |].
  destruct (SyncAnnotation.Max _) as [t|] eqn:Hmax; [| done].
  apply annotated_last_synced_iff in Hmax as (key & session & Hk & Hs & _).
  destruct (Hgone key Hk) as [Hnone _]. congruence.
Qed.

Lemma annotated_status_without_session_witness :
  SyncAnnotation.status 77
    (SyncAnnotation.MkAnnotated
       (SyncAnnotation.MkUserSyncStatus "gosho" true None) None false)
  = Some QUEUED.
Proof.
  apply (annotated_status_without_session 77 SampleSync.tables SampleSync.rows
           (SyncAnnotation.MkAnnotated
              (SyncAnnotation.MkUserSyncStatus "gosho" true None) None false)).
  - right. left.
  - intros key Hkey. discriminate Hkey.
Defined.

(** ** The reported URLs, as strings *)

Lemma list_filter_sublist {A : Type} (f : A -> bool) (l : list A) :
  sublist (List.filter f l) l.
Proof.
  induction l as [|x l IH]; cbn; [constructor |].
  destruct (f x); by constructor.
Qed.

Lemma list_filter_elem_of {A : Type} (f : A -> bool) (l : list A) (x : A) :
  x ∈ List.filter f l <-> x ∈ l /\ f x = true.
Proof. by rewrite !list_elem_of_In, filter_In. Qed.

(** X14: the reported URLs are URLs that were served, in the order
    they were served in, and they are all of one kind: either none of
    them has [127.0.0.1] or [localhost] anywhere in it (host, path or
    query), or each of them has. *)
Theorem reported_urls_one_kind (env : environment) (req : request) :
  sublist (DeviceInfoView.reported_urls env req) (DeviceInfoView.served_urls env req)
  /\ ((forall url, url ∈ DeviceInfoView.reported_urls env req ->
         forall pre post, url <> (pre ++ "127.0.0.1" ++ post)%string
                          /\ url <> (pre ++ "localhost" ++ post)%string)
      \/ (forall url, url ∈ DeviceInfoView.reported_urls env req ->
            (exists pre post, url = (pre ++ "127.0.0.1" ++ post)%string)
            \/ (exists pre post, url = (pre ++ "localhost" ++ post)%string))).
Proof.
  destruct (reported_urls_cases env req) as [[Hk ->] | [Hk ->]].
  - split; [done |]. right. intros url Hin.
    apply is_local_iff. rewrite filter_nil_iff in Hk.
    specialize (Hk url Hin). by apply negb_false_iff in Hk.
  - split; [apply list_filter_sublist |]. left.
    intros url [_ Hnl]%list_filter_elem_of pre post.
    apply negb_true_iff in Hnl.
    split; intros ->.
    + assert (DeviceInfoView.is_local (pre ++ "127.0.0.1" ++ post)%string = true)
        as Hl by (apply is_local_iff; left; eauto).
      congruence.
    + assert (DeviceInfoView.is_local (pre ++ "localhost" ++ post)%string = true)
        as Hl by (apply is_local_iff; right; eauto).
      congruence.
Qed.

Example reported_urls_path_counts :
  DeviceInfoView.is_local "http://10.0.0.2:8080/docs/localhost.html" = true.
Proof. reflexivity. Qed.
